(** * hector_timeit::Timer — a shallow embedding of [src/timer.hpp]

    The timer measures wall and CPU/thread time of a code section with
    two back-to-back clock readings on each side of the section, keeps
    the accumulated time of the current run and the history of the
    committed runs, and prints statistics over the runs.

    Conventions of the embedding:
    - a C++ [long] (64 bits on the supported platforms) is a [Z] and
      every arithmetic operation on it goes through [Long.wrap];
    - a clock reading is an argument of the operation that takes it
      (records [StartClock] and [StopClock]); a failed [clock_gettime]
      is the reading [None];
    - [assert] aborts the program unless the build defines [NDEBUG]:
      operations that contain one return an [outcome];
    - a [double] is an IEEE 754 binary64 value, [spec_float] with
      precision 53 and maximal exponent 1024. *)

From Stdlib Require Import ZArith List String Ascii Bool Lia.
From Stdlib Require Import Floats.SpecFloat.
From Stdlib Require Import DecimalString.
Import ListNotations.
Local Open Scope Z_scope.

(* ===================================================================== *)
(** ** 64-bit signed arithmetic *)
(* ===================================================================== *)

Module Long.

Definition two63 : Z := 9223372036854775808.
Definition two64 : Z := 18446744073709551616.

(** [INT64_MIN] and [INT64_MAX]. *)
Definition min : Z := - two63.
Definition max : Z := two63 - 1.

(** Two's complement reduction into [[min, max]]. *)
Definition wrap (z : Z) : Z := (z + two63) mod two64 - two63.

Definition add (a b : Z) : Z := wrap (a + b).
Definition sub (a b : Z) : Z := wrap (a - b).
Definition mul (a b : Z) : Z := wrap (a * b).
(** C++ integer division truncates toward zero. *)
Definition div (a b : Z) : Z := wrap (Z.quot a b).

(** The value is representable: the operation that produced it did
    not overflow. *)
Definition fits (z : Z) : Prop := min <= z <= max.

End Long.

(** [size_t]: 64 bits, unsigned, defined wrap-around. *)
Module SizeT.

Definition wrap (z : Z) : Z := z mod Long.two64.
Definition add (a b : Z) : Z := wrap (a + b).
Definition sub (a b : Z) : Z := wrap (a - b).

End SizeT.

(* ===================================================================== *)
(** ** Assertions *)
(* ===================================================================== *)

(** The result of a member function that contains an [assert]. *)
Inductive outcome (A : Type) : Type :=
| Done (a : A)
| Aborted.
Arguments Done {A} a.
Arguments Aborted {A}.

Definition bind {A B : Type} (c : outcome A) (k : A -> outcome B) : outcome B :=
  match c with
  | Done a => k a
  | Aborted => Aborted
  end.

Notation "x <- c ;; k" := (bind c (fun x => k))
  (at level 61, c at next level, right associativity).
Notation "' p <- c ;; k" := (bind c (fun x => let 'p := x in k))
  (at level 61, p pattern, c at next level, right associativity).

(** [assert( c )] from <cassert>: nothing when [NDEBUG] is defined,
    otherwise the program aborts when [c] is false. *)
Definition assert (NDEBUG : bool) (c : bool) : outcome unit :=
  if NDEBUG || c then Done tt else Aborted.

(* ===================================================================== *)
(** ** The timer *)
(* ===================================================================== *)

Inductive TimeUnit : Type :=
| Default | Seconds | Milliseconds | Microseconds | Nanoseconds.

Record Timer : Type := MkTimer {
  run_times_ : list Z;
  cpu_run_times_ : list Z;
  name_ : string;
  print_time_unit_ : TimeUnit;
  start_a_ : Z;
  start_b_ : Z;
  elapsed_time_ : Z;
  elapsed_cpu_time_ : Z;
  cpu_start_a_ : Z;
  cpu_start_b_ : Z;
  running_ : bool;
  cpu_time_valid_a_ : bool;
  cpu_time_valid_b_ : bool;
  print_on_destruct_ : bool
}.

(** The four clock readings of [start()], in the order they are taken. *)
Record StartClock : Type := MkStartClock {
  now_start_a : Z;
  now_start_b : Z;
  cpu_start_a : option Z;
  cpu_start_b : option Z
}.

(** The four clock readings of [stop()], in the order they are taken.
    [stop()] skips a CPU reading whose start side was invalid; the
    field is then not looked at. *)
Record StopClock : Type := MkStopClock {
  cpu_stop_b : option Z;
  cpu_stop_a : option Z;
  now_stop_b : Z;
  now_stop_a : Z
}.

(** [getCpuTime( long &val )]: writes [val] and returns true when the
    clock could be read, leaves [val] alone and returns false otherwise. *)
Definition getCpuTime (reading : option Z) (val : Z) : bool * Z :=
  match reading with
  | Some v => (true, v)
  | None => (false, val)
  end.

(** [duration_cast<nanoseconds>( end - start ).count()] *)
Definition internalGetDuration (start end_ : Z) : Z := Long.sub end_ start.

Definition start (t : Timer) (clk : StartClock) : Timer :=
  if running_ t then t
  else
    let '(valid_a, cpu_a) := getCpuTime (cpu_start_a clk) (cpu_start_a_ t) in
    let '(valid_b, cpu_b) := getCpuTime (cpu_start_b clk) (cpu_start_b_ t) in
    {| run_times_ := run_times_ t;
       cpu_run_times_ := cpu_run_times_ t;
       name_ := name_ t;
       print_time_unit_ := print_time_unit_ t;
       start_a_ := now_start_a clk;
       start_b_ := now_start_b clk;
       elapsed_time_ := elapsed_time_ t;
       elapsed_cpu_time_ := elapsed_cpu_time_ t;
       cpu_start_a_ := cpu_a;
       cpu_start_b_ := cpu_b;
       running_ := true;
       cpu_time_valid_a_ := valid_a;
       cpu_time_valid_b_ := valid_b;
       print_on_destruct_ := print_on_destruct_ t |}.

Section Build.

(** Whether the translation unit is compiled with [NDEBUG]. *)
Variable NDEBUG : bool.

Definition stop (t : Timer) (clk : StopClock) : outcome Timer :=
  if negb (running_ t) then Done t
  else
    let time_a := 0 in
    let time_b := 0 in
    let '(valid_b, time_b) :=
      if cpu_time_valid_a_ t && cpu_time_valid_b_ t
      then getCpuTime (cpu_stop_b clk) time_b
      else (cpu_time_valid_b_ t, time_b) in
    let '(valid_a, time_a) :=
      if cpu_time_valid_a_ t
      then getCpuTime (cpu_stop_a clk) time_a
      else (cpu_time_valid_a_ t, time_a) in
    let time_point_b := now_stop_b clk in
    let time_point_a := now_stop_a clk in
    '(cpu_diff, elapsed_cpu_time) <-
      (if valid_a then
         let '(cpu_diff, elapsed) :=
           if valid_b then
             let cpu_diff :=
               Long.sub (Long.sub time_a (cpu_start_a_ t))
                        (Long.sub time_b (cpu_start_b_ t)) in
             (cpu_diff,
              Long.sub (Long.sub time_b (cpu_start_b_ t)) (Long.div cpu_diff 2))
           else (0, Long.sub time_a (cpu_start_a_ t)) in
         _ <- assert NDEBUG (0 <=? elapsed) ;;
         Done (cpu_diff, Long.add (elapsed_cpu_time_ t) elapsed)
       else Done (0, elapsed_cpu_time_ t)) ;;
    let wall_time_b := internalGetDuration (start_b_ t) time_point_b in
    let wall_time_a := internalGetDuration (start_a_ t) time_point_a in
    let elapsed :=
      Long.sub
        (Long.sub (Long.add wall_time_b (Long.div wall_time_b 2))
                  (Long.div wall_time_a 2))
        (Long.mul 2 cpu_diff) in
    _ <- assert NDEBUG (0 <=? elapsed) ;;
    Done {| run_times_ := run_times_ t;
            cpu_run_times_ := cpu_run_times_ t;
            name_ := name_ t;
            print_time_unit_ := print_time_unit_ t;
            start_a_ := start_a_ t;
            start_b_ := start_b_ t;
            elapsed_time_ := Long.add (elapsed_time_ t) elapsed;
            elapsed_cpu_time_ := elapsed_cpu_time;
            cpu_start_a_ := cpu_start_a_ t;
            cpu_start_b_ := cpu_start_b_ t;
            running_ := false;
            cpu_time_valid_a_ := valid_a;
            cpu_time_valid_b_ := valid_b;
            print_on_destruct_ := print_on_destruct_ t |}.

(** The body of [reset] after the implicit [stop()]. *)
Definition reset_stopped (new_run : bool) (t : Timer) : Timer :=
  let '(run_times, cpu_run_times) :=
    if new_run then
      if 0 <? elapsed_time_ t then
        (run_times_ t ++ [elapsed_time_ t],
         cpu_run_times_ t
           ++ [if cpu_time_valid_a_ t then elapsed_cpu_time_ t else -1])
      else (run_times_ t, cpu_run_times_ t)
    else ([], []) in
  {| run_times_ := run_times;
     cpu_run_times_ := cpu_run_times;
     name_ := name_ t;
     print_time_unit_ := print_time_unit_ t;
     start_a_ := start_a_ t;
     start_b_ := start_b_ t;
     elapsed_time_ := 0;
     elapsed_cpu_time_ := 0;
     cpu_start_a_ := cpu_start_a_ t;
     cpu_start_b_ := cpu_start_b_ t;
     running_ := running_ t;
     cpu_time_valid_a_ := true;
     cpu_time_valid_b_ := true;
     print_on_destruct_ := print_on_destruct_ t |}.

Definition reset (new_run : bool) (t : Timer) (clk : StopClock)
  : outcome Timer :=
  t <- stop t clk ;;
  Done (reset_stopped new_run t).

End Build.

(** [getElapsedTime()]; [now] is read only while the timer runs. *)
Definition getElapsedTime (t : Timer) (now : Z) : Z :=
  let result := elapsed_time_ t in
  if running_ t
  then Long.add result (internalGetDuration (start_b_ t) now)
  else result.

(** [getElapsedCpuTime()]; [cpu_now] is read only while the timer runs. *)
Definition getElapsedCpuTime (t : Timer) (cpu_now : option Z) : Z :=
  if negb (cpu_time_valid_a_ t) then -1
  else
    let result := elapsed_cpu_time_ t in
    if running_ t then
      match cpu_now with
      | None => -1
      | Some time => Long.add result (Long.sub time (cpu_start_a_ t))
      end
    else result.

Definition getRunTimes (t : Timer) (now : Z) : list Z :=
  let result := run_times_ t in
  let elapsed_time := getElapsedTime t now in
  if negb (elapsed_time =? 0) then result ++ [elapsed_time] else result.

Definition getCpuRunTimes (t : Timer) (cpu_now : option Z) : list Z :=
  let result := cpu_run_times_ t in
  let elapsed_cpu_time := getElapsedCpuTime t cpu_now in
  if 0 <? elapsed_cpu_time then result ++ [elapsed_cpu_time] else result.

(** The constructor: member initialisers, then [start()] on autostart. *)
Definition Timer_new (name : string) (print_time_unit : TimeUnit)
    (autostart print_on_destruct : bool) (clk : StartClock) : Timer :=
  let t :=
    {| run_times_ := [];
       cpu_run_times_ := [];
       name_ := name;
       print_time_unit_ := print_time_unit;
       start_a_ := 0;
       start_b_ := 0;
       elapsed_time_ := 0;
       elapsed_cpu_time_ := 0;
       cpu_start_a_ := 0;
       cpu_start_b_ := 0;
       running_ := false;
       cpu_time_valid_a_ := true;
       cpu_time_valid_b_ := true;
       print_on_destruct_ := print_on_destruct |} in
  if autostart then start t clk else t.

(* ===================================================================== *)
(** ** Doubles and stream output *)
(* ===================================================================== *)

Definition double : Type := spec_float.

Module Double.

Definition prec : Z := 53.
Definition emax : Z := 1024.

(** Conversion of an integer, rounded to nearest-even when it has more
    than 53 significant bits. *)
Definition of_Z (z : Z) : double := binary_normalize prec emax z 0 false.

Definition zero : double := S754_zero false.
Definition add : double -> double -> double := SFadd prec emax.
Definition sub : double -> double -> double := SFsub prec emax.
Definition mul : double -> double -> double := SFmul prec emax.
Definition div : double -> double -> double := SFdiv prec emax.
Definition sqrt : double -> double := SFsqrt prec emax.
Definition ltb : double -> double -> bool := SFltb.

End Double.

(** An [std::ostringstream] is the text written to it so far. *)
Definition ostringstream : Type := string.

(** [std::endl] *)
Definition endl : string := String (ascii_of_nat 10) EmptyString.

Fixpoint spaces (n : nat) : string :=
  match n with
  | O => EmptyString
  | S n' => String " "%char (spaces n')
  end.

(** [stream << v] for an integer [v]. *)
Definition put_integer (v : Z) : string := NilZero.string_of_int (Z.to_int v).

(** Quotient of [num] by [den] rounded to the nearest integer, ties to
    the even one ([num >= 0], [den > 0]). *)
Definition round_half_even (num den : Z) : Z :=
  let q := num / den in
  let r := num mod den in
  match 2 * r ?= den with
  | Lt => q
  | Gt => q + 1
  | Eq => if Z.even q then q else q + 1
  end.

Definition put_sign (s : bool) : string := (if s then "-" else "")%string.

Definition put_digits3 (k : Z) : string :=
  (put_integer (k / 100) ++ put_integer (k / 10 mod 10)
     ++ put_integer (k mod 10))%string.

(** [stream << v] for a double [v] on a stream set to [std::ios::fixed]
    with precision 3: the exact value of [v] rounded to three decimals.
    A [spec_float] NaN carries no sign.  Every NaN this program can
    compute comes from an invalid operation on numbers (0.0 / 0), and
    on x86-64 such a NaN has its sign bit set: the stream writes
    "-nan". *)
Definition put_fixed3 (v : double) : string :=
  match v with
  | S754_nan => "-nan"%string
  | S754_infinity s => (put_sign s ++ "inf")%string
  | S754_zero s => (put_sign s ++ "0.000")%string
  | S754_finite s m e =>
      let thousandths :=
        if 0 <=? e then Zpos m * 2 ^ e * 1000
        else round_half_even (Zpos m * 1000) (2 ^ (- e)) in
      (put_sign s ++ put_integer (thousandths / 1000) ++ "."
         ++ put_digits3 (thousandths mod 1000))%string
  end.

(** What [printTimeString<T>] needs of its template parameter: the
    conversion to double of [time / 1E9] and [time < 5E6], the
    comparison [time < 5000] against an [int], and [stream << time]. *)
Class TimeValue (T : Type) : Type := {
  to_double : T -> double;
  lt_int : T -> Z -> bool;
  put : T -> string
}.

(** [T = long] (and [long long], the same type of 64 bits). *)
#[export] Instance TimeValue_long : TimeValue Z := {|
  to_double := Double.of_Z;
  lt_int := fun time k => time <? k;
  put := put_integer
|}.

(** [T = double]. *)
#[export] Instance TimeValue_double : TimeValue double := {|
  to_double := fun time => time;
  lt_int := fun time k => Double.ltb time (Double.of_Z k);
  put := put_fixed3
|}.

Definition strlen (s : string) : Z := Z.of_nat (String.length s).

Definition printPaddedString (stream : ostringstream) (text : string) (pad : Z)
  : ostringstream :=
  let i :=
    if pad =? 0 then 0 else SizeT.sub pad (strlen text) / 2 in
  let stream := (stream ++ spaces (Z.to_nat i))%string in
  let stream := (stream ++ text)%string in
  let i := SizeT.add i (strlen text) in
  (stream ++ spaces (Z.to_nat (pad - i)))%string.

Definition printTimeString {T : Type} `{TimeValue T}
    (outstream : ostringstream) (time : T) (print_time_unit : TimeUnit)
    (pad : Z) : ostringstream :=
  let stream :=
    match print_time_unit with
    | Seconds =>
        put_fixed3 (Double.div (to_double time) (Double.of_Z 1000000000)) ++ "s"
    | Milliseconds =>
        put_fixed3 (Double.div (to_double time) (Double.of_Z 1000000)) ++ "ms"
    | Microseconds =>
        put_fixed3 (Double.div (to_double time) (Double.of_Z 1000)) ++ "us"
    | Nanoseconds => put time ++ "ns"
    | Default =>
        if lt_int time 5000 then put time ++ "ns"
        else if Double.ltb (to_double time) (Double.of_Z 5000000) then
          put_fixed3 (Double.div (to_double time) (Double.of_Z 1000)) ++ "us"
        else if Double.ltb (to_double time) (Double.of_Z 5000000000) then
          put_fixed3 (Double.div (to_double time) (Double.of_Z 1000000)) ++ "ms"
        else
          put_fixed3 (Double.div (to_double time) (Double.of_Z 1000000000)) ++ "s"
    end%string in
  printPaddedString outstream stream pad.

Definition square (x : double) : double := Double.mul x x.

(* ===================================================================== *)
(** ** Statistics over the runs *)
(* ===================================================================== *)

(** The locals of the first loop of [printStats]. *)
Record Tally : Type := MkTally {
  tally_max : Z;
  tally_min : Z;
  tally_sum : Z;
  tally_count : Z
}.

Definition tally_init : Tally :=
  {| tally_max := 0; tally_min := Long.max; tally_sum := 0; tally_count := 0 |}.

(** One iteration of the first loop. *)
Definition tally_step (a : Tally) (time : Z) : Tally :=
  if time =? -1 then a
  else
    {| tally_max := if tally_max a <? time then time else tally_max a;
       tally_min := if time <? tally_min a then time else tally_min a;
       tally_sum := Long.add (tally_sum a) time;
       tally_count := SizeT.add (tally_count a) 1 |}.

(** One iteration of the second loop. *)
Definition var_step (mean : double) (var : double) (time : Z) : double :=
  if time =? -1 then var
  else Double.add var (square (Double.sub (Double.of_Z time) mean)).

(** The locals of [printStats] when it reaches [if ( count == 0 )]. *)
Record Stats : Type := MkStats {
  stats_max : Z;
  stats_min : Z;
  stats_sum : Z;
  stats_count : Z;
  stats_mean : double;
  stats_var : double
}.

Definition computeStats (run_times : list Z) : Stats :=
  let a := fold_left tally_step run_times tally_init in
  let mean :=
    Double.div (Double.of_Z (tally_sum a)) (Double.of_Z (tally_count a)) in
  let var := fold_left (var_step mean) run_times Double.zero in
  let var := Double.div var (Double.of_Z (SizeT.sub (tally_count a) 1)) in
  {| stats_max := tally_max a;
     stats_min := tally_min a;
     stats_sum := tally_sum a;
     stats_count := tally_count a;
     stats_mean := mean;
     stats_var := var |}.

Definition none_valid : string := "None of the runs had valid times!".

(** The line that follows the row when some entries were skipped. *)
Definition warning (count size : Z) : string :=
  (endl ++ "Warning: Only " ++ put_integer count ++ " of " ++ put_integer size
     ++ " had valid times!")%string.

(** The row of [printStats]: mean and deviation, longest, shortest, sum. *)
Definition printStatsRow (stream : ostringstream) (s : Stats)
    (print_time_unit : TimeUnit) : ostringstream :=
  let avg_stream := EmptyString in
  let avg_stream := printTimeString avg_stream (stats_mean s) print_time_unit 0 in
  let avg_stream := (avg_stream ++ " +- ")%string in
  let avg_stream :=
    printTimeString avg_stream (Double.sqrt (stats_var s)) print_time_unit 0 in
  let stream := printPaddedString stream avg_stream 40 in
  let stream := printTimeString stream (stats_max s) print_time_unit 16 in
  let stream := printTimeString stream (stats_min s) print_time_unit 16 in
  printTimeString stream (stats_sum s) print_time_unit 16.

Definition printStats (stream : ostringstream) (run_times : list Z)
    (print_time_unit : TimeUnit) : ostringstream :=
  let s := computeStats run_times in
  if stats_count s =? 0 then (stream ++ none_valid)%string
  else
    let stream := printStatsRow stream s print_time_unit in
    if negb (stats_count s =? Z.of_nat (List.length run_times))
    then (stream ++ warning (stats_count s) (Z.of_nat (List.length run_times)))%string
    else stream.

(** The entries that [printStats] does not skip. *)
Definition valid_times (run_times : list Z) : list Z :=
  filter (fun time => negb (time =? -1)) run_times.

(* ===================================================================== *)
(** ** Sequences of calls on one timer *)
(* ===================================================================== *)

(** A call of a public member function, with the clock readings it
    takes. *)
Inductive call : Type :=
| call_start (clk : StartClock)
| call_stop (clk : StopClock)
| call_reset (new_run : bool) (clk : StopClock)
| call_getElapsedTime (now : Z)
| call_getElapsedCpuTime (cpu_now : option Z)
| call_getRunTimes (now : Z)
| call_getCpuRunTimes (cpu_now : option Z).

(** What a call returns to its caller. *)
Inductive reply : Type :=
| reply_void
| reply_long (v : Z)
| reply_vector (v : list Z).

(** One call; the getters are [const] member functions and hand the
    timer back as it was. *)
Definition exec (NDEBUG : bool) (t : Timer) (c : call) : outcome (Timer * reply) :=
  match c with
  | call_start clk => Done (start t clk, reply_void)
  | call_stop clk => t' <- stop NDEBUG t clk ;; Done (t', reply_void)
  | call_reset new_run clk =>
      t' <- reset NDEBUG new_run t clk ;; Done (t', reply_void)
  | call_getElapsedTime now => Done (t, reply_long (getElapsedTime t now))
  | call_getElapsedCpuTime cpu_now =>
      Done (t, reply_long (getElapsedCpuTime t cpu_now))
  | call_getRunTimes now => Done (t, reply_vector (getRunTimes t now))
  | call_getCpuRunTimes cpu_now =>
      Done (t, reply_vector (getCpuRunTimes t cpu_now))
  end.

Fixpoint exec_all (NDEBUG : bool) (t : Timer) (cs : list call) : outcome Timer :=
  match cs with
  | [] => Done t
  | c :: cs' => '(t', _) <- exec NDEBUG t c ;; exec_all NDEBUG t' cs'
  end.

(** What one call does to the two histories: [reset( false )] empties
    them, [reset( true )] leaves them alone or appends one entry to
    each, every other call leaves them alone. *)
Definition histories_step (c : call) (t t' : Timer) : Prop :=
  match c with
  | call_reset false _ => run_times_ t' = [] /\ cpu_run_times_ t' = []
  | call_reset true _ =>
      (run_times_ t' = run_times_ t /\ cpu_run_times_ t' = cpu_run_times_ t) \/
      (exists wall cpu,
          run_times_ t' = run_times_ t ++ [wall] /\
          cpu_run_times_ t' = cpu_run_times_ t ++ [cpu])
  | _ => run_times_ t' = run_times_ t /\ cpu_run_times_ t' = cpu_run_times_ t
  end.

(* ===================================================================== *)
(** ** The correction formula, over the integers *)
(* ===================================================================== *)

(** Stop-minus-start difference of the inner and of the outer pair of
    wall readings. *)
Definition D_inner (t : Timer) (clk : StopClock) : Z := now_stop_b clk - start_b_ t.
Definition D_outer (t : Timer) (clk : StopClock) : Z := now_stop_a clk - start_a_ t.

(** The same for two CPU readings [time_b] and [time_a] of [stop()]. *)
Definition D_inner_cpu (t : Timer) (time_b : Z) : Z := time_b - cpu_start_b_ t.
Definition D_outer_cpu (t : Timer) (time_a : Z) : Z := time_a - cpu_start_a_ t.

(** Outer-minus-inner difference on the CPU side; 0 unless all four
    CPU readings of the interval were taken and valid. *)
Definition cpu_drift (t : Timer) (clk : StopClock) : Z :=
  match cpu_time_valid_a_ t, cpu_time_valid_b_ t, cpu_stop_b clk, cpu_stop_a clk with
  | true, true, Some time_b, Some time_a =>
      D_outer_cpu t time_a - D_inner_cpu t time_b
  | _, _, _, _ => 0
  end.

(** Readings for which no operation of [stop()] up to the addition
    into the accumulators overflows: wall readings below 2^61 ns (the
    year 2043 when counted from 1970), CPU readings below 2^59 ns. *)
Definition wall_reading (v : Z) : Prop := 0 <= v < 2305843009213693952.
Definition cpu_reading (v : Z) : Prop := 0 <= v < 576460752303423488.

Definition cpu_reading_opt (r : option Z) : Prop :=
  match r with
  | Some v => cpu_reading v
  | None => True
  end.

Definition readings_in_range (t : Timer) (clk : StopClock) : Prop :=
  wall_reading (start_a_ t) /\ wall_reading (start_b_ t) /\
  wall_reading (now_stop_b clk) /\ wall_reading (now_stop_a clk) /\
  cpu_reading (cpu_start_a_ t) /\ cpu_reading (cpu_start_b_ t) /\
  cpu_reading_opt (cpu_stop_b clk) /\ cpu_reading_opt (cpu_stop_a clk).

(* ===================================================================== *)
(** ** Concrete timers used in the examples *)
(* ===================================================================== *)

(** The timer of [QOpenGLWrapper::draw]: no autostart, so the readings
    handed to the constructor are not taken. *)
Definition no_start_clock : StartClock :=
  {| now_start_a := 0; now_start_b := 0; cpu_start_a := None; cpu_start_b := None |}.

Definition render_timer : Timer :=
  Timer_new "render" Default false true no_start_clock.

(** A start whose four readings are valid and increase. *)
Definition late_start_clock : StartClock :=
  {| now_start_a := 1000; now_start_b := 1100;
     cpu_start_a := Some 500; cpu_start_b := Some 520 |}.

(** A stop whose readings are valid and increase; the second wall
    reading comes 600 ns after the first one (the thread was scheduled
    out between the two). *)
Definition late_stop_clock : StopClock :=
  {| cpu_stop_b := Some 560; cpu_stop_a := Some 580;
     now_stop_b := 1300; now_stop_a := 1900 |}.

Definition late_timer : Timer := start render_timer late_start_clock.

(** An undisturbed interval: every wall reading takes 10 ns, every CPU
    reading 5 ns, the timed section 4000 ns. *)
Definition even_start_clock : StartClock :=
  {| now_start_a := 1000; now_start_b := 1010;
     cpu_start_a := Some 500; cpu_start_b := Some 505 |}.

Definition even_stop_clock : StopClock :=
  {| cpu_stop_b := Some 4510; cpu_stop_a := Some 4515;
     now_stop_b := 5040; now_stop_a := 5050 |}.

Definition even_timer : Timer := start render_timer even_start_clock.

(** A platform without a CPU clock. *)
Definition wall_only_start_clock : StartClock :=
  {| now_start_a := 1000; now_start_b := 1010;
     cpu_start_a := None; cpu_start_b := None |}.

Definition wall_only_stop_clock : StopClock :=
  {| cpu_stop_b := None; cpu_stop_a := None;
     now_stop_b := 5040; now_stop_a := 5050 |}.

Definition wall_only_timer : Timer := start render_timer wall_only_start_clock.

(** Two timed runs, one look at the histories, then a full reset. *)
Definition two_runs : list call :=
  [ call_start even_start_clock; call_reset true even_stop_clock;
    call_start even_start_clock; call_stop even_stop_clock;
    call_getRunTimes 0; call_reset true even_stop_clock ].

(** The run of [wall_only_timer], stopped and not yet committed. *)
Definition wall_only_stopped : Timer :=
  match stop false wall_only_timer wall_only_stop_clock with
  | Done t => t
  | Aborted => wall_only_timer
  end.

(* ===================================================================== *)
(** ** The scope guard *)
(* ===================================================================== *)

(** [TimeBlock] holds a reference to the timer it measures on; the
    field [timer_] is the state of that timer. *)
Record TimeBlock : Type := MkTimeBlock {
  timer_ : Timer;
  ended_ : bool
}.

(** The constructor: [timer_.start()]. *)
Definition TimeBlock_new (timer : Timer) (clk : StartClock) : TimeBlock :=
  {| timer_ := start timer clk; ended_ := false |}.

(** [end()]; the [stop()] inside [reset( true )] finds the timer
    stopped and takes no reading. *)
Definition TimeBlock_end (NDEBUG : bool) (b : TimeBlock) (clk : StopClock)
  : outcome TimeBlock :=
  t <- stop NDEBUG (timer_ b) clk ;;
  if ended_ b then Done {| timer_ := t; ended_ := ended_ b |}
  else
    t' <- reset NDEBUG true t clk ;;
    Done {| timer_ := t'; ended_ := true |}.

(** The destructor: [end()]. *)
Definition TimeBlock_delete (NDEBUG : bool) (b : TimeBlock) (clk : StopClock)
  : outcome TimeBlock :=
  TimeBlock_end NDEBUG b clk.

(** The timing part of [QOpenGLWrapper::draw]: a [TimeBlock] on the
    function's static timer, constructed before the drawing and
    destroyed after it; the drawing itself does not touch the timer. *)
Definition draw_timed (NDEBUG : bool) (timer : Timer)
    (clks : StartClock * StopClock) : outcome Timer :=
  let block := TimeBlock_new timer (fst clks) in
  b <- TimeBlock_delete NDEBUG block (snd clks) ;;
  Done (timer_ b).

(** Successive calls of [draw], the static timer living on between
    them. *)
Fixpoint draws (NDEBUG : bool) (timer : Timer)
    (calls : list (StartClock * StopClock)) : outcome Timer :=
  match calls with
  | [] => Done timer
  | clks :: calls' =>
      t <- draw_timed NDEBUG timer clks ;; draws NDEBUG t calls'
  end.

(** The wall duration [stop()] computes for an interval started and
    stopped with the given readings. *)
Definition interval_cpu_diff (sc : StartClock) (ec : StopClock) : Z :=
  match cpu_start_a sc, cpu_start_b sc, cpu_stop_b ec, cpu_stop_a ec with
  | Some start_a, Some start_b, Some time_b, Some time_a =>
      Long.sub (Long.sub time_a start_a) (Long.sub time_b start_b)
  | _, _, _, _ => 0
  end.

Definition interval_wall (clks : StartClock * StopClock) : Z :=
  let '(sc, ec) := clks in
  let wall_time_b := internalGetDuration (now_start_b sc) (now_stop_b ec) in
  let wall_time_a := internalGetDuration (now_start_a sc) (now_stop_a ec) in
  Long.sub
    (Long.sub (Long.add wall_time_b (Long.div wall_time_b 2))
              (Long.div wall_time_a 2))
    (Long.mul 2 (interval_cpu_diff sc ec)).

(* ===================================================================== *)
(** ** The report *)
(* ===================================================================== *)

(** [v[i]]; outside the vector the behaviour is undefined: [None]. *)
Definition vector_at (v : list Z) (i : nat) : option Z := nth_error v i.

Section Report.

(** Whether [_POSIX_THREAD_CPUTIME] is defined. *)
Variable POSIX_THREAD_CPUTIME : bool.

Definition cpu_label_open : string :=
  if POSIX_THREAD_CPUTIME then " (Thread: " else " (CPU: ".

Definition cpu_label_row : string :=
  if POSIX_THREAD_CPUTIME then "Thread" else "CPU".

Definition internalPrint (name : string) (run_times cpu_run_times : list Z)
    (print_time_unit : TimeUnit) : option string :=
  let stringstream :=
    ("[Timer: " ++ name ++ "] " ++ put_integer (Z.of_nat (List.length run_times))
       ++ " run(s) took: ")%string in
  if (List.length run_times =? 0)%nat then
    Some (stringstream ++ "no time at all.")%string
  else if (List.length run_times =? 1)%nat then
    match vector_at run_times 0, vector_at cpu_run_times 0 with
    | Some time, Some cpu_time =>
        let stringstream := printTimeString stringstream time print_time_unit 0 in
        let stringstream :=
          if negb (cpu_time =? -1) then
            let stringstream := printPaddedString stringstream cpu_label_open 0 in
            let stringstream :=
              printTimeString stringstream cpu_time print_time_unit 0 in
            (stringstream ++ ")")%string
          else stringstream in
        Some (stringstream ++ ".")%string
    | _, _ => None
    end
  else
    let stringstream := (stringstream ++ endl)%string in
    let stringstream := printPaddedString stringstream "Type" 8 in
    let stringstream := printPaddedString stringstream "Mean (+/- stddev)" 40 in
    let stringstream := printPaddedString stringstream "Longest" 16 in
    let stringstream := printPaddedString stringstream "Shortest" 16 in
    let stringstream := printPaddedString stringstream "Sum" 16 in
    let stringstream := (stringstream ++ endl)%string in
    let stringstream := printPaddedString stringstream "Real" 8 in
    let stringstream := printStats stringstream run_times print_time_unit in
    let stringstream := (stringstream ++ endl)%string in
    let stringstream := printPaddedString stringstream cpu_label_row 8 in
    Some (printStats stringstream cpu_run_times print_time_unit).

(** [toString()]; the two queries read the clocks while the timer
    runs. *)
Definition toString (t : Timer) (now : Z) (cpu_now : option Z) : option string :=
  internalPrint (name_ t) (getRunTimes t now) (getCpuRunTimes t cpu_now)
    (print_time_unit_ t).

(** The destructor: what it writes to [std::cout]. *)
Definition Timer_delete (t : Timer) (now : Z) (cpu_now : option Z)
  : option string :=
  if print_on_destruct_ t then
    match toString t now cpu_now with
    | Some text => Some (text ++ endl)%string
    | None => None
    end
  else Some EmptyString.

(** [Timer::time( fn, name, print_time_unit )]: what is written to
    [std::cout] when the timer constructed before the call of [fn] is
    destroyed after it.  [clk] holds the readings of the constructor,
    [now] and [cpu_now] those of the destructor. *)
Definition Timer_time (name : string) (print_time_unit : TimeUnit)
    (clk : StartClock) (now : Z) (cpu_now : option Z) : option string :=
  let timer := Timer_new name print_time_unit true true clk in
  Timer_delete timer now cpu_now.

End Report.

(** The sum of a list of integers. *)
Definition sum_Z (l : list Z) : Z := fold_right Z.add 0 l.

(** What a [stop()] on a running timer adds to the two accumulators,
    over the integers: the wall amount, and the CPU amount, which is
    [None] when the CPU accumulator is left alone. *)
Definition wall_added (t : Timer) (clk : StopClock) : Z :=
  D_inner t clk + D_inner t clk ÷ 2 - D_outer t clk ÷ 2 - 2 * cpu_drift t clk.

Definition is_some {A : Type} (o : option A) : bool :=
  match o with
  | Some _ => true
  | None => false
  end.

Definition cpu_added (t : Timer) (clk : StopClock) : option Z :=
  match cpu_time_valid_a_ t, cpu_stop_a clk with
  | true, Some time_a =>
      match cpu_time_valid_b_ t, cpu_stop_b clk with
      | true, Some time_b => Some (D_inner_cpu t time_b - cpu_drift t clk ÷ 2)
      | _, _ => Some (D_outer_cpu t time_a)
      end
  | _, _ => None
  end.

(** The durations that [reset( true )] commits. *)
Definition committed_runs (durations : list Z) : list Z :=
  filter (fun w => 0 <? w) durations.

(* ===================================================================== *)
(** * Facts *)
(* ===================================================================== *)

(** ** Arithmetic on [long] *)

Arguments Long.add : simpl never.
Arguments Long.sub : simpl never.
Arguments Long.mul : simpl never.
Arguments Long.div : simpl never.
Arguments internalGetDuration : simpl never.

Lemma Long_wrap_fits z : Long.fits z -> Long.wrap z = z.
Proof.
  unfold Long.fits, Long.wrap, Long.min, Long.max, Long.two63, Long.two64.
  intros H. rewrite Z.mod_small; lia.
Qed.

Lemma Long_wrap_range z : Long.fits (Long.wrap z).
Proof.
  unfold Long.fits, Long.wrap, Long.min, Long.max, Long.two63, Long.two64.
  pose proof (Z.mod_pos_bound (z + 9223372036854775808) 18446744073709551616).
  lia.
Qed.

Lemma quot2_double z : 2 * (z ÷ 2) = z - Z.rem z 2.
Proof. pose proof (Z.quot_rem' z 2). lia. Qed.

Lemma quot2_bounds z lo hi : lo <= 0 <= hi -> lo <= z <= hi -> lo <= z ÷ 2 <= hi.
Proof.
  intros H0 Hz. pose proof (Z.quot_rem' z 2) as E.
  destruct (Z_le_gt_dec 0 z) as [Hp | Hn].
  - pose proof (Z.rem_bound_pos z 2 Hp ltac:(lia)). lia.
  - pose proof (Z.rem_bound_pos_neg z 2 ltac:(lia) ltac:(lia)). lia.
Qed.

Lemma rem2_bounds z : -1 <= Z.rem z 2 <= 1.
Proof.
  destruct (Z_le_gt_dec 0 z) as [Hp | Hn].
  - pose proof (Z.rem_bound_pos z 2 Hp ltac:(lia)). lia.
  - pose proof (Z.rem_bound_pos_neg z 2 ltac:(lia) ltac:(lia)). lia.
Qed.

(** The wall-side expression of [stop()] on in-range operands. *)
Lemma wall_elapsed_exact sa sb pa pb cd :
  wall_reading sa -> wall_reading sb -> wall_reading pa -> wall_reading pb ->
  - 1152921504606846976 < cd < 1152921504606846976 ->
  Long.sub
    (Long.sub (Long.add (internalGetDuration sb pb)
                        (Long.div (internalGetDuration sb pb) 2))
              (Long.div (internalGetDuration sa pa) 2))
    (Long.mul 2 cd)
  = (pb - sb) + (pb - sb) ÷ 2 - (pa - sa) ÷ 2 - 2 * cd.
Proof.
  unfold wall_reading, internalGetDuration, Long.sub, Long.add, Long.mul, Long.div.
  intros Ha Hb Hpa Hpb Hcd.
  assert (Fb : Long.wrap (pb - sb) = pb - sb).
  { apply Long_wrap_fits. unfold Long.fits, Long.min, Long.max, Long.two63. lia. }
  assert (Fa : Long.wrap (pa - sa) = pa - sa).
  { apply Long_wrap_fits. unfold Long.fits, Long.min, Long.max, Long.two63. lia. }
  rewrite Fb, Fa.
  pose proof (quot2_bounds (pb - sb) (-2305843009213693952) 2305843009213693952
                ltac:(lia) ltac:(lia)) as Qb.
  pose proof (quot2_bounds (pa - sa) (-2305843009213693952) 2305843009213693952
                ltac:(lia) ltac:(lia)) as Qa.
  rewrite (Long_wrap_fits ((pb - sb) ÷ 2))
    by (unfold Long.fits, Long.min, Long.max, Long.two63; lia).
  rewrite (Long_wrap_fits ((pa - sa) ÷ 2))
    by (unfold Long.fits, Long.min, Long.max, Long.two63; lia).
  rewrite (Long_wrap_fits (2 * cd))
    by (unfold Long.fits, Long.min, Long.max, Long.two63; lia).
  rewrite (Long_wrap_fits (pb - sb + (pb - sb) ÷ 2))
    by (unfold Long.fits, Long.min, Long.max, Long.two63; lia).
  rewrite (Long_wrap_fits (pb - sb + (pb - sb) ÷ 2 - (pa - sa) ÷ 2))
    by (unfold Long.fits, Long.min, Long.max, Long.two63; lia).
  apply Long_wrap_fits. unfold Long.fits, Long.min, Long.max, Long.two63. lia.
Qed.

(** The CPU-side expressions of [stop()] on in-range operands. *)
Lemma cpu_diff_exact ca cb ta tb :
  cpu_reading ca -> cpu_reading cb -> cpu_reading ta -> cpu_reading tb ->
  Long.sub (Long.sub ta ca) (Long.sub tb cb) = (ta - ca) - (tb - cb).
Proof.
  unfold cpu_reading, Long.sub. intros Ha Hb Hta Htb.
  rewrite (Long_wrap_fits (ta - ca))
    by (unfold Long.fits, Long.min, Long.max, Long.two63; lia).
  rewrite (Long_wrap_fits (tb - cb))
    by (unfold Long.fits, Long.min, Long.max, Long.two63; lia).
  apply Long_wrap_fits. unfold Long.fits, Long.min, Long.max, Long.two63. lia.
Qed.

Lemma cpu_elapsed_exact ca cb ta tb :
  cpu_reading ca -> cpu_reading cb -> cpu_reading ta -> cpu_reading tb ->
  Long.sub (Long.sub tb cb) (Long.div ((ta - ca) - (tb - cb)) 2)
  = (tb - cb) - ((ta - ca) - (tb - cb)) ÷ 2.
Proof.
  unfold cpu_reading, Long.sub, Long.div. intros Ha Hb Hta Htb.
  pose proof (quot2_bounds ((ta - ca) - (tb - cb))
                (-1152921504606846976) 1152921504606846976
                ltac:(lia) ltac:(lia)) as Q.
  rewrite (Long_wrap_fits (tb - cb))
    by (unfold Long.fits, Long.min, Long.max, Long.two63; lia).
  rewrite (Long_wrap_fits (((ta - ca) - (tb - cb)) ÷ 2))
    by (unfold Long.fits, Long.min, Long.max, Long.two63; lia).
  apply Long_wrap_fits. unfold Long.fits, Long.min, Long.max, Long.two63. lia.
Qed.

(** ** [start] and [stop] *)

(** Case analysis on everything [stop] branches on. *)
Ltac stop_cases t clk :=
  unfold stop, reset, bind, assert, getCpuTime in *;
  destruct (running_ t) eqn:?; simpl in *;
  destruct (cpu_time_valid_a_ t) eqn:?, (cpu_time_valid_b_ t) eqn:?,
           (cpu_stop_b clk) eqn:?, (cpu_stop_a clk) eqn:?; simpl in *;
  repeat match goal with
         | H : context [if ?c then _ else _] |- _ => destruct c eqn:?; simpl in H
         | |- context [if ?c then _ else _] => destruct c eqn:?; simpl
         end.

(** Without assertions [stop] always returns. *)
Lemma stop_ndebug_returns t clk : exists t', stop true t clk = Done t'.
Proof. stop_cases t clk; eauto. Qed.

(** With assertions, [stop] either aborts or does what the build
    without them does. *)
Lemma stop_debug_agrees t clk t' :
  stop false t clk = Done t' -> stop true t clk = Done t'.
Proof. stop_cases t clk; intros E; try discriminate; exact E. Qed.

(** What [stop] leaves alone, and the state it ends in. *)
Lemma stop_frame NDEBUG t clk t' :
  stop NDEBUG t clk = Done t' ->
  run_times_ t' = run_times_ t /\ cpu_run_times_ t' = cpu_run_times_ t /\
  running_ t' = false.
Proof.
  destruct NDEBUG; stop_cases t clk; intros E; inversion E; subst; simpl; auto.
Qed.

Lemma stop_stopped NDEBUG t clk : running_ t = false -> stop NDEBUG t clk = Done t.
Proof. intros H. unfold stop. rewrite H. reflexivity. Qed.

(** C1. A [stop()] on a running timer whose readings are in range adds
    [D_inner + D_inner/2 - D_outer/2 - 2 * cpu_diff] to the wall
    accumulator, the divisions being the truncating ones of [long];
    twice that amount is [3 * D_inner - D_outer - 4 * cpu_diff] up to
    the two remainders.  [cpu_diff] is 0 unless all CPU readings are
    valid.  When they are, [D_inner_cpu - cpu_diff/2] is added to the
    CPU accumulator, and twice that amount is
    [3 * D_inner_cpu - D_outer_cpu] up to the remainder. *)
Theorem stop_adds_corrected_duration t clk :
  running_ t = true ->
  readings_in_range t clk ->
  (exists t', stop true t clk = Done t') /\
  forall NDEBUG t',
    stop NDEBUG t clk = Done t' ->
    let wall :=
      D_inner t clk + D_inner t clk ÷ 2 - D_outer t clk ÷ 2
        - 2 * cpu_drift t clk in
    elapsed_time_ t' = Long.add (elapsed_time_ t) wall /\
    2 * wall
      = 3 * D_inner t clk - D_outer t clk - 4 * cpu_drift t clk
          - Z.rem (D_inner t clk) 2 + Z.rem (D_outer t clk) 2 /\
    forall time_b time_a,
      cpu_time_valid_a_ t = true -> cpu_time_valid_b_ t = true ->
      cpu_stop_b clk = Some time_b -> cpu_stop_a clk = Some time_a ->
      let cpu := D_inner_cpu t time_b - cpu_drift t clk ÷ 2 in
      cpu_drift t clk = D_outer_cpu t time_a - D_inner_cpu t time_b /\
      elapsed_cpu_time_ t' = Long.add (elapsed_cpu_time_ t) cpu /\
      2 * cpu
        = 3 * D_inner_cpu t time_b - D_outer_cpu t time_a
            + Z.rem (cpu_drift t clk) 2.
Proof.
  intros Hrun (Hsa & Hsb & Hpb & Hpa & Hca & Hcb & Htb & Hta).
  split; [apply stop_ndebug_returns |].
  intros NDEBUG t' Hstop wall.
  assert (Hwall2 : 2 * wall
      = 3 * D_inner t clk - D_outer t clk - 4 * cpu_drift t clk
          - Z.rem (D_inner t clk) 2 + Z.rem (D_outer t clk) 2).
  { subst wall. pose proof (quot2_double (D_inner t clk)).
    pose proof (quot2_double (D_outer t clk)). lia. }
  assert (Hdrift : - 1152921504606846976 < cpu_drift t clk < 1152921504606846976).
  { unfold cpu_drift, D_outer_cpu, D_inner_cpu, cpu_reading_opt, cpu_reading in *.
    destruct (cpu_time_valid_a_ t), (cpu_time_valid_b_ t),
      (cpu_stop_b clk), (cpu_stop_a clk); lia. }
  assert (Hacc : elapsed_time_ t' = Long.add (elapsed_time_ t) wall /\
                 (forall time_b time_a,
                    cpu_time_valid_a_ t = true -> cpu_time_valid_b_ t = true ->
                    cpu_stop_b clk = Some time_b -> cpu_stop_a clk = Some time_a ->
                    elapsed_cpu_time_ t'
                    = Long.add (elapsed_cpu_time_ t)
                        (D_inner_cpu t time_b - cpu_drift t clk ÷ 2))).
  { subst wall. revert Hdrift. unfold cpu_drift, D_inner, D_outer, D_inner_cpu, D_outer_cpu.
    unfold cpu_reading_opt in *.
    unfold stop, bind, assert, getCpuTime in Hstop. rewrite Hrun in Hstop.
    simpl in Hstop.
    destruct (cpu_time_valid_a_ t) eqn:Va, (cpu_time_valid_b_ t) eqn:Vb,
             (cpu_stop_b clk) as [tb|] eqn:Rb, (cpu_stop_a clk) as [ta|] eqn:Ra;
      simpl in Hstop; intros Hdrift;
      repeat first
        [ rewrite (cpu_diff_exact _ _ _ _ Hca Hcb Hta Htb) in Hstop
        | rewrite (cpu_elapsed_exact _ _ _ _ Hca Hcb Hta Htb) in Hstop
        | rewrite (wall_elapsed_exact _ _ _ _ _ Hsa Hsb Hpa Hpb) in Hstop by lia
        | match type of Hstop with
          | context [if ?c then _ else _] => destruct c; simpl in Hstop
          end ];
      try discriminate; inversion Hstop; subst t'; simpl;
      (split; [ f_equal; lia | ]);
      intros time_b time_a E1 E2 E3 E4; try discriminate;
      inversion E3; inversion E4; subst; reflexivity. }
  destruct Hacc as [Hw Hc].
  split; [exact Hw | split; [exact Hwall2 |]].
  intros time_b time_a Va Vb Rb Ra cpu.
  split.
  - unfold cpu_drift. rewrite Va, Vb, Rb, Ra. reflexivity.
  - split; [subst cpu; eauto |].
    subst cpu. pose proof (quot2_double (cpu_drift t clk)) as Q.
    assert (cpu_drift t clk = D_outer_cpu t time_a - D_inner_cpu t time_b) as D.
    { unfold cpu_drift. rewrite Va, Vb, Rb, Ra. reflexivity. }
    lia.
Qed.

(** The stopped timer of the undisturbed interval. *)
Lemma even_timer_stopped :
  stop false even_timer even_stop_clock
  = Done {| run_times_ := []; cpu_run_times_ := [];
            name_ := "render"; print_time_unit_ := Default;
            start_a_ := 1000; start_b_ := 1010;
            elapsed_time_ := 4000; elapsed_cpu_time_ := 4000;
            cpu_start_a_ := 500; cpu_start_b_ := 505;
            running_ := false;
            cpu_time_valid_a_ := true; cpu_time_valid_b_ := true;
            print_on_destruct_ := true |}.
Proof. reflexivity. Qed.

Lemma stop_adds_corrected_duration_witness :
  running_ even_timer = true /\
  readings_in_range even_timer even_stop_clock /\
  (exists t', stop false even_timer even_stop_clock = Done t' /\
              elapsed_time_ t' = 4000 /\ elapsed_cpu_time_ t' = 4000).
Proof.
  assert (Hrun : running_ even_timer = true) by reflexivity.
  assert (Hin : readings_in_range even_timer even_stop_clock).
  { unfold readings_in_range, wall_reading, cpu_reading_opt, cpu_reading.
    cbn. lia. }
  split; [exact Hrun | split; [exact Hin |]].
  destruct (stop_adds_corrected_duration even_timer even_stop_clock Hrun Hin)
    as [_ H].
  eexists. split; [reflexivity |].
  destruct (H false _ eq_refl) as (Hw & _ & Hc).
  split; [exact Hw |].
  destruct (Hc 4510 4515 eq_refl eq_refl eq_refl eq_refl) as (_ & Hcpu & _).
  exact Hcpu.
Defined.

(** C2. The corrected durations can be negative on readings that are
    all valid and never decrease: with the assertions compiled in,
    [stop()] aborts on the wall-side [assert( elapsed >= 0 )]; without
    them the accumulator, and [getElapsedTime()] after the cycle, is
    -230 ns. *)
Theorem stop_elapsed_can_be_negative :
  (now_start_a late_start_clock <= now_start_b late_start_clock
     <= now_stop_b late_stop_clock) /\
  now_stop_b late_stop_clock <= now_stop_a late_stop_clock /\
  D_inner late_timer late_stop_clock < D_outer late_timer late_stop_clock /\
  late_timer = start (Timer_new "render" Default false true no_start_clock)
                     late_start_clock /\
  stop false late_timer late_stop_clock = Aborted /\
  exists t', stop true late_timer late_stop_clock = Done t' /\
             getElapsedTime t' 0 = -230.
Proof.
  repeat split; try (cbn; lia).
  eexists. split; reflexivity.
Qed.

(** C3. A run of nonzero accumulated wall time is not committed where
    [stop()] breaks its own assertion.  A build without assertions
    that calls [reset( true )] on the running [late_timer] accumulates
    -230 ns in the implicit [stop()]: a nonzero wall time, which
    [getRunTimes()] reports as the current run; [reset( true )], whose
    guard is [elapsed_time_ > 0], commits nothing and zeroes the
    accumulator.  A build with assertions aborts in the implicit
    [stop()]. *)
Theorem reset_new_run_drops_negative_run :
  late_timer = start (Timer_new "render" Default false true no_start_clock)
                     late_start_clock /\
  (exists t1,
      stop true late_timer late_stop_clock = Done t1 /\
      elapsed_time_ t1 = -230 /\ getRunTimes t1 0 = [-230] /\
      run_times_ t1 = [] /\ cpu_run_times_ t1 = []) /\
  (exists t',
      reset true true late_timer late_stop_clock = Done t' /\
      run_times_ t' = [] /\ cpu_run_times_ t' = [] /\
      elapsed_time_ t' = 0) /\
  reset false true late_timer late_stop_clock = Aborted.
Proof.
  split; [reflexivity |].
  split; [eexists; repeat split; reflexivity |].
  split; [eexists; repeat split; reflexivity | reflexivity].
Qed.

(** X16. [reset( true )] first does what [stop()] does; it then
    appends the wall accumulator to the wall history, and the CPU
    accumulator (-1 when [cpu_time_valid_a_] is false) to the CPU
    history, exactly when the wall accumulator is greater than zero;
    it ends with both accumulators zero and both validity flags true.
    It aborts only where the implicit [stop()] does. *)
Theorem reset_new_run_commits_positive_run NDEBUG t clk :
  match stop NDEBUG t clk with
  | Done t1 =>
      exists t',
        reset NDEBUG true t clk = Done t' /\
        (if 0 <? elapsed_time_ t1
         then run_times_ t' = run_times_ t1 ++ [elapsed_time_ t1] /\
              cpu_run_times_ t' =
                cpu_run_times_ t1
                  ++ [if cpu_time_valid_a_ t1 then elapsed_cpu_time_ t1 else -1]
         else run_times_ t' = run_times_ t1 /\
              cpu_run_times_ t' = cpu_run_times_ t1) /\
        run_times_ t1 = run_times_ t /\
        cpu_run_times_ t1 = cpu_run_times_ t /\
        (running_ t = false -> t1 = t) /\
        elapsed_time_ t' = 0 /\ elapsed_cpu_time_ t' = 0 /\
        cpu_time_valid_a_ t' = true /\ cpu_time_valid_b_ t' = true /\
        running_ t' = false
  | Aborted =>
      reset NDEBUG true t clk = Aborted /\ NDEBUG = false /\ running_ t = true
  end.
Proof.
  destruct (stop NDEBUG t clk) as [t1 |] eqn:E.
  - exists (reset_stopped true t1).
    destruct (stop_frame _ _ _ _ E) as (F1 & F2 & F3).
    split; [unfold reset; rewrite E; reflexivity |].
    unfold reset_stopped.
    destruct (0 <? elapsed_time_ t1); simpl; repeat split; auto.
    all: intros Hs; rewrite (stop_stopped _ _ _ Hs) in E; congruence.
  - split; [unfold reset; rewrite E; reflexivity |].
    destruct NDEBUG.
    + destruct (stop_ndebug_returns t clk) as [t' E']. congruence.
    + split; [reflexivity |].
      destruct (running_ t) eqn:R; [reflexivity |].
      rewrite (stop_stopped _ _ _ R) in E. discriminate.
Qed.

Lemma reset_new_run_commits_positive_run_witness :
  exists t',
    reset false true even_timer even_stop_clock = Done t' /\
    run_times_ t' = [4000] /\ cpu_run_times_ t' = [4000] /\
    elapsed_time_ t' = 0 /\ elapsed_cpu_time_ t' = 0.
Proof.
  pose proof (reset_new_run_commits_positive_run false even_timer even_stop_clock)
    as H.
  rewrite even_timer_stopped in H.
  destruct H as (t' & R & Hc & _ & _ & _ & Hw & Hcpu & _).
  exists t'. simpl in Hc. destruct Hc as [Hc1 Hc2].
  split; [exact R |]. split; [exact Hc1 |]. split; [exact Hc2 |].
  split; [exact Hw | exact Hcpu].
Defined.

(** C4. [start()] on a running timer and [stop()] on a stopped timer
    return the timer as it is, whatever the clocks read; so does a
    [stop()] that follows a [stop()]. *)
Theorem start_stop_noop NDEBUG t sclk clk clk' :
  (running_ t = true -> start t sclk = t) /\
  (running_ t = false -> stop NDEBUG t clk = Done t) /\
  (forall t1, stop NDEBUG t clk = Done t1 -> stop NDEBUG t1 clk' = Done t1).
Proof.
  repeat split.
  - intros H. unfold start. rewrite H. reflexivity.
  - apply stop_stopped.
  - intros t1 E. apply stop_stopped.
    destruct (stop_frame _ _ _ _ E) as (_ & _ & F). exact F.
Qed.

Lemma start_stop_noop_witness :
  running_ even_timer = true /\
  start even_timer late_start_clock = even_timer /\
  running_ render_timer = false /\
  stop false render_timer late_stop_clock = Done render_timer /\
  (exists t1, stop false even_timer even_stop_clock = Done t1 /\
              stop false t1 late_stop_clock = Done t1).
Proof.
  pose proof (start_stop_noop false even_timer late_start_clock
                even_stop_clock late_stop_clock) as (H1 & _ & H3).
  pose proof (start_stop_noop false render_timer late_start_clock
                late_stop_clock late_stop_clock) as (_ & H2 & _).
  split; [reflexivity |].
  split; [exact (H1 eq_refl) |].
  split; [reflexivity |].
  split; [exact (H2 eq_refl) |].
  eexists. split; [reflexivity |].
  exact (H3 _ eq_refl).
Defined.

(** ** The run histories *)

Lemma start_frame t clk :
  run_times_ (start t clk) = run_times_ t /\
  cpu_run_times_ (start t clk) = cpu_run_times_ t.
Proof.
  unfold start. destruct (running_ t); [auto |].
  destruct (getCpuTime (cpu_start_a clk) (cpu_start_a_ t)).
  destruct (getCpuTime (cpu_start_b clk) (cpu_start_b_ t)).
  simpl. auto.
Qed.

Lemma exec_histories_step NDEBUG t c t' r :
  exec NDEBUG t c = Done (t', r) -> histories_step c t t'.
Proof.
  destruct c as [clk | clk | new_run clk | now | cpu_now | now | cpu_now];
    simpl; intros E; try (inversion E; subst; auto; fail).
  - inversion E; subst. apply start_frame.
  - destruct (stop NDEBUG t clk) as [t1 |] eqn:S; simpl in E; [| discriminate].
    inversion E; subst. destruct (stop_frame _ _ _ _ S) as (F1 & F2 & _). auto.
  - unfold reset in E.
    destruct (stop NDEBUG t clk) as [t1 |] eqn:S; simpl in E; [| discriminate].
    inversion E; subst. destruct (stop_frame _ _ _ _ S) as (F1 & F2 & _).
    unfold reset_stopped. destruct new_run; simpl; [| auto].
    destruct (0 <? elapsed_time_ t1); simpl.
    + right. rewrite F1, F2. eauto.
    + left. auto.
Qed.

Lemma histories_step_parallel c t t' :
  histories_step c t t' ->
  List.length (run_times_ t) = List.length (cpu_run_times_ t) ->
  List.length (run_times_ t') = List.length (cpu_run_times_ t').
Proof.
  unfold histories_step.
  destruct c as [clk | clk | [|] clk | now | cpu_now | now | cpu_now];
    intros H L;
    try (destruct H as [H1 H2]; rewrite H1, H2; auto; fail).
  destruct H as [[H1 H2] | (w & c & H1 & H2)]; rewrite H1, H2; auto.
  rewrite !length_app. simpl. lia.
Qed.

Lemma exec_all_parallel NDEBUG cs :
  forall t t',
    exec_all NDEBUG t cs = Done t' ->
    List.length (run_times_ t) = List.length (cpu_run_times_ t) ->
    List.length (run_times_ t') = List.length (cpu_run_times_ t').
Proof.
  induction cs as [| c cs IH]; simpl; intros t t' E L.
  - inversion E; subst. exact L.
  - destruct (exec NDEBUG t c) as [[t1 r] |] eqn:X; simpl in E; [| discriminate].
    apply (IH t1 t' E).
    apply (histories_step_parallel c t t1); [| exact L].
    eapply exec_histories_step; eauto.
Qed.

Lemma exec_ndebug_returns t c : exists t' r, exec true t c = Done (t', r).
Proof.
  destruct c as [clk | clk | new_run clk | now | cpu_now | now | cpu_now];
    simpl; eauto.
  - destruct (stop_ndebug_returns t clk) as [t' E]. rewrite E. simpl. eauto.
  - unfold reset. destruct (stop_ndebug_returns t clk) as [t' E].
    rewrite E. simpl. eauto.
Qed.

Lemma exec_all_ndebug_returns cs : forall t, exists t', exec_all true t cs = Done t'.
Proof.
  induction cs as [| c cs IH]; simpl; intros t; [eauto |].
  destruct (exec_ndebug_returns t c) as (t1 & r & E). rewrite E. simpl. apply IH.
Qed.

Lemma Timer_new_histories name unit autostart print_on_destruct clk :
  run_times_ (Timer_new name unit autostart print_on_destruct clk) = [] /\
  cpu_run_times_ (Timer_new name unit autostart print_on_destruct clk) = [].
Proof.
  unfold Timer_new. destruct autostart; [| simpl; auto].
  match goal with |- context [start ?t clk] => pose proof (start_frame t clk) as F end.
  simpl in F. exact F.
Qed.

(** C5. After any sequence of calls on a freshly constructed timer the
    two histories have the same length; a call changes them only by
    [reset( true )] appending one entry to each or by [reset( false )]
    emptying them; and without assertions every sequence of calls runs
    to its end. *)
Theorem run_histories_parallel NDEBUG :
  (forall name unit autostart print_on_destruct clk cs t,
      exec_all NDEBUG (Timer_new name unit autostart print_on_destruct clk) cs
        = Done t ->
      List.length (run_times_ t) = List.length (cpu_run_times_ t)) /\
  (forall t c t' r, exec NDEBUG t c = Done (t', r) -> histories_step c t t') /\
  (forall t cs, exists t', exec_all true t cs = Done t').
Proof.
  split; [| split].
  - intros name unit autostart pod clk cs t E.
    apply (exec_all_parallel _ _ _ _ E).
    destruct (Timer_new_histories name unit autostart pod clk) as [H1 H2].
    rewrite H1, H2. reflexivity.
  - apply exec_histories_step.
  - intros t cs. apply exec_all_ndebug_returns.
Qed.

Lemma run_histories_parallel_witness :
  (exists t, exec_all false render_timer two_runs = Done t /\
             run_times_ t = [4000; 4000] /\
             List.length (run_times_ t) = List.length (cpu_run_times_ t)) /\
  (exists t', exec false even_timer (call_reset true even_stop_clock)
                = Done (t', reply_void) /\
              histories_step (call_reset true even_stop_clock) even_timer t').
Proof.
  destruct (run_histories_parallel false) as (H1 & H2 & _).
  split.
  - eexists. split; [reflexivity |]. split; [reflexivity |].
    exact (H1 "render"%string Default false true no_start_clock two_runs _ eq_refl).
  - eexists. split; [reflexivity |].
    exact (H2 even_timer (call_reset true even_stop_clock) _ reply_void eq_refl).
Defined.

(** C9. [reset( false )] ends with both histories empty, both
    accumulators zero and the timer stopped, whatever the timer held
    and whether it was running.  It aborts only where the implicit
    [stop()] does: in a build with assertions, on a running timer
    whose corrected duration is negative; never without assertions. *)
Theorem reset_all_clears NDEBUG t clk :
  match reset NDEBUG false t clk with
  | Done t' =>
      run_times_ t' = [] /\ cpu_run_times_ t' = [] /\
      elapsed_time_ t' = 0 /\ elapsed_cpu_time_ t' = 0 /\
      running_ t' = false
  | Aborted =>
      NDEBUG = false /\ running_ t = true /\ stop NDEBUG t clk = Aborted
  end.
Proof.
  unfold reset.
  destruct (stop NDEBUG t clk) as [t1 |] eqn:E; simpl.
  - destruct (stop_frame _ _ _ _ E) as (_ & _ & F). auto.
  - destruct NDEBUG.
    + destruct (stop_ndebug_returns t clk) as [t' E']. congruence.
    + split; [reflexivity |]. split; [| reflexivity].
      destruct (running_ t) eqn:R; [reflexivity |].
      rewrite (stop_stopped _ _ _ R) in E. discriminate.
Qed.

(** ** The two history queries *)

(** C10. On a timer whose histories are parallel, when the elapsed
    wall time of the current run is nonzero and the elapsed CPU time
    is -1 or 0, [getRunTimes()] has exactly one entry more than
    [getCpuRunTimes()]: the histories followed by the elapsed wall
    time on one side, the CPU history alone on the other. *)
Theorem run_time_queries_differ t now cpu_now :
  List.length (run_times_ t) = List.length (cpu_run_times_ t) ->
  getElapsedTime t now <> 0 ->
  getElapsedCpuTime t cpu_now = -1 \/ getElapsedCpuTime t cpu_now = 0 ->
  getRunTimes t now = run_times_ t ++ [getElapsedTime t now] /\
  getCpuRunTimes t cpu_now = cpu_run_times_ t /\
  List.length (getRunTimes t now)
    = S (List.length (getCpuRunTimes t cpu_now)).
Proof.
  intros L Hw Hc.
  assert (R : getRunTimes t now = run_times_ t ++ [getElapsedTime t now]).
  { unfold getRunTimes. destruct (Z.eqb_spec (getElapsedTime t now) 0); [tauto | reflexivity]. }
  assert (C : getCpuRunTimes t cpu_now = cpu_run_times_ t).
  { unfold getCpuRunTimes.
    destruct (Z.ltb_spec 0 (getElapsedCpuTime t cpu_now)); [lia | reflexivity]. }
  rewrite R, C. repeat split.
  rewrite length_app. simpl. lia.
Qed.

Lemma run_time_queries_differ_witness :
  getRunTimes wall_only_stopped 0 = [4020] /\
  getCpuRunTimes wall_only_stopped None = [] /\
  List.length (getRunTimes wall_only_stopped 0)
    = S (List.length (getCpuRunTimes wall_only_stopped None)).
Proof.
  assert (L : List.length (run_times_ wall_only_stopped)
              = List.length (cpu_run_times_ wall_only_stopped)) by reflexivity.
  assert (Hw : getElapsedTime wall_only_stopped 0 <> 0) by (vm_compute; discriminate).
  assert (Hc : getElapsedCpuTime wall_only_stopped None = -1 \/
               getElapsedCpuTime wall_only_stopped None = 0)
    by (left; reflexivity).
  destruct (run_time_queries_differ wall_only_stopped 0 None L Hw Hc)
    as (H1 & H2 & H3).
  split; [exact H1 | split; [exact H2 | exact H3]].
Defined.

(** ** Conversion of integers to double *)

Lemma iter_xO_value k : forall m, Zpos (Pos.iter xO m k) = Zpos m * 2 ^ Zpos k.
Proof.
  induction k using Pos.peano_ind; intros m.
  - simpl. lia.
  - rewrite Pos.iter_succ, Pos2Z.inj_xO, IHk, Pos2Z.inj_succ, Z.pow_succ_r by lia. lia.
Qed.

Lemma digits2_pos_bounds m :
  2 ^ (Zpos (digits2_pos m) - 1) <= Zpos m < 2 ^ Zpos (digits2_pos m).
Proof.
  induction m as [m IH | m IH |]; simpl digits2_pos.
  - rewrite Pos2Z.inj_succ. change (Zpos m~1) with (2 * Zpos m + 1).
    replace (Z.succ (Zpos (digits2_pos m)) - 1) with (Z.succ (Zpos (digits2_pos m) - 1)) by lia.
    rewrite !Z.pow_succ_r by lia.
    generalize dependent (2 ^ (Zpos (digits2_pos m) - 1)).
    generalize (2 ^ Zpos (digits2_pos m)). intros; lia.
  - rewrite Pos2Z.inj_succ. change (Zpos m~0) with (2 * Zpos m).
    replace (Z.succ (Zpos (digits2_pos m)) - 1) with (Z.succ (Zpos (digits2_pos m) - 1)) by lia.
    rewrite !Z.pow_succ_r by lia.
    generalize dependent (2 ^ (Zpos (digits2_pos m) - 1)).
    generalize (2 ^ Zpos (digits2_pos m)). intros; lia.
  - simpl. lia.
Qed.

Lemma digits2_pos_unique m n :
  2 ^ (n - 1) <= Zpos m < 2 ^ n -> Zpos (digits2_pos m) = n.
Proof.
  intros [Hlo Hhi]. pose proof (digits2_pos_bounds m) as [Blo Bhi].
  assert (0 < n).
  { destruct (Z_lt_le_dec 0 n); [assumption |].
    destruct (Z.eq_dec n 0) as [-> | ]; [simpl in Hhi; lia |].
    rewrite Z.pow_neg_r in Hhi by lia. lia. }
  destruct (Z.lt_trichotomy (Zpos (digits2_pos m)) n) as [L | [E | G]]; [| exact E |].
  - assert (2 ^ Zpos (digits2_pos m) <= 2 ^ (n - 1)) by (apply Z.pow_le_mono_r; lia). lia.
  - assert (2 ^ n <= 2 ^ (Zpos (digits2_pos m) - 1)) by (apply Z.pow_le_mono_r; lia). lia.
Qed.

Lemma shr_fexp_canonical mz e :
  Zpos (digits2_pos mz) = 53 -> -1074 <= e ->
  shr_fexp 53 1024 (Zpos mz) e loc_Exact
  = ({| shr_m := Zpos mz; shr_r := false; shr_s := false |}, e).
Proof.
  intros Hd He. unfold shr_fexp, Zdigits2. rewrite Hd.
  replace (fexp 53 1024 (53 + e) - e) with 0 by (unfold fexp, emin; lia).
  reflexivity.
Qed.

Lemma binary_round_aux_canonical s mz e :
  Zpos (digits2_pos mz) = 53 -> -1074 <= e <= 971 ->
  binary_round_aux 53 1024 s (Zpos mz) e loc_Exact = S754_finite s mz e.
Proof.
  intros Hd He. unfold binary_round_aux.
  rewrite (shr_fexp_canonical mz e Hd) by lia.
  cbv [shr_m loc_of_shr_record round_nearest_even].
  rewrite (shr_fexp_canonical mz e Hd) by lia.
  cbv [shr_m].
  destruct (e <=? 1024 - 53) eqn:L; [reflexivity | apply Z.leb_gt in L; lia].
Qed.

(** Integers of at most 53 bits convert exactly. *)
Lemma of_Z_exact m :
  Zpos (digits2_pos m) <= 53 ->
  exists mz, Double.of_Z (Zpos m) = S754_finite false mz (Zpos (digits2_pos m) - 53) /\
             Zpos mz = Zpos m * 2 ^ (53 - Zpos (digits2_pos m)).
Proof.
  intros Hd. unfold Double.of_Z, Double.prec, Double.emax, binary_normalize, binary_round.
  pose proof (digits2_pos_bounds m) as [Blo Bhi].
  remember (Zpos (digits2_pos m)) as d eqn:Ed.
  assert (Hf : fexp 53 1024 (d + 0) = d - 53).
  { unfold fexp, emin. lia. }
  rewrite Hf.
  assert (exists mz, shl_align m 0 (d - 53) = (mz, d - 53) /\ Zpos mz = Zpos m * 2 ^ (53 - d)) as (mz & Hs & Hv).
  { unfold shl_align. destruct (d - 53 - 0) as [| p | p] eqn:E; try lia.
    - exists m. replace (d - 53) with 0 by lia. replace (53 - d) with 0 by lia. split; [reflexivity | simpl; lia].
    - exists (Pos.iter xO m p). split; [reflexivity |].
      rewrite iter_xO_value. f_equal. f_equal. lia. }
  rewrite Hs. exists mz. split; [| exact Hv].
  assert (Hdz : Zpos (digits2_pos mz) = 53).
  { apply digits2_pos_unique. rewrite Hv.
    replace (2 ^ (53 - 1)) with (2 ^ (d - 1) * 2 ^ (53 - d)).
    2:{ rewrite <- Z.pow_add_r by lia. f_equal. lia. }
    replace (2 ^ 53) with (2 ^ d * 2 ^ (53 - d)).
    2:{ rewrite <- Z.pow_add_r by lia. f_equal. lia. }
    assert (0 < 2 ^ (53 - d)) by (apply Z.pow_pos_nonneg; lia).
    nia. }
  apply binary_round_aux_canonical; [exact Hdz | lia].
Qed.

Lemma digits2_pos_le m n : 0 <= n -> Zpos m < 2 ^ n -> Zpos (digits2_pos m) <= n.
Proof.
  intros Hn Hm. pose proof (digits2_pos_bounds m) as [Blo _].
  destruct (Z_le_gt_dec (Zpos (digits2_pos m)) n) as [L | G]; [exact L |].
  assert (2 ^ n <= 2 ^ (Zpos (digits2_pos m) - 1)) by (apply Z.pow_le_mono_r; lia).
  lia.
Qed.

Lemma ltb_of_Z_exact a b :
  0 < a < 2 ^ 53 -> 0 < b < 2 ^ 53 ->
  Double.ltb (Double.of_Z a) (Double.of_Z b) = (a <? b).
Proof.
  intros Ha Hb.
  destruct a as [| ma | ma]; try lia. destruct b as [| mb | mb]; try lia.
  pose proof (digits2_pos_le ma 53 ltac:(lia) ltac:(lia)) as Da.
  pose proof (digits2_pos_le mb 53 ltac:(lia) ltac:(lia)) as Db.
  destruct (of_Z_exact ma Da) as (za & Ea & Va).
  destruct (of_Z_exact mb Db) as (zb & Eb & Vb).
  pose proof (digits2_pos_bounds ma) as [Alo Ahi].
  pose proof (digits2_pos_bounds mb) as [Blo Bhi].
  rewrite Ea, Eb. unfold Double.ltb, SFltb, SFcompare.
  remember (Zpos (digits2_pos ma)) as da.
  remember (Zpos (digits2_pos mb)) as db.
  destruct (Z.compare_spec (da - 53) (db - 53)) as [E | L | G].
  - assert (da = db) as -> by lia.
    change (Pos.compare_cont Eq za zb) with (Zpos za ?= Zpos zb).
    rewrite Va, Vb.
    assert (0 < 2 ^ (53 - db)) by (apply Z.pow_pos_nonneg; lia).
    destruct (Z.compare_spec (Zpos ma * 2 ^ (53 - db)) (Zpos mb * 2 ^ (53 - db)));
      destruct (Z.ltb_spec (Zpos ma) (Zpos mb)); try reflexivity; nia.
  - assert (2 ^ da <= 2 ^ (db - 1)) by (apply Z.pow_le_mono_r; lia).
    destruct (Z.ltb_spec (Zpos ma) (Zpos mb)); [reflexivity | lia].
  - assert (2 ^ db <= 2 ^ (da - 1)) by (apply Z.pow_le_mono_r; lia).
    destruct (Z.ltb_spec (Zpos ma) (Zpos mb)); [lia | reflexivity].
Qed.

Lemma shr_m_shr_1 mrs : 0 <= shr_m mrs -> shr_m (shr_1 mrs) = shr_m mrs / 2.
Proof.
  destruct mrs as [m r s]. simpl shr_m at 1 3. intros H.
  destruct m as [| [p | p |] | p]; try lia; unfold shr_1, shr_m.
  - reflexivity.
  - change (Zpos p~1) with (2 * Zpos p + 1).
    apply (Z.div_unique _ _ _ 1); lia.
  - change (Zpos p~0) with (2 * Zpos p).
    apply (Z.div_unique _ _ _ 0); lia.
  - reflexivity.
Qed.

Lemma shr_m_iter p : forall mrs,
  0 <= shr_m mrs -> shr_m (iter_pos shr_1 p mrs) = shr_m mrs / 2 ^ Zpos p.
Proof.
  induction p as [p IH | p IH |]; intros mrs H; simpl iter_pos.
  - assert (H1 : 0 <= shr_m (shr_1 mrs)).
    { rewrite shr_m_shr_1 by exact H. apply Z.div_pos; lia. }
    assert (H2 : 0 <= shr_m (iter_pos shr_1 p (shr_1 mrs))).
    { rewrite IH by exact H1. apply Z.div_pos; [exact H1 | apply Z.pow_pos_nonneg; lia]. }
    rewrite IH by exact H2. rewrite IH by exact H1. rewrite shr_m_shr_1 by exact H.
    change (Zpos p~1) with (2 * Zpos p + 1).
    replace (2 * Zpos p + 1) with (1 + Zpos p + Zpos p) by lia.
    assert (0 < 2 ^ Zpos p) by (apply Z.pow_pos_nonneg; lia).
    rewrite !Z.pow_add_r by lia. change (2 ^ 1) with 2.
    rewrite !Z.div_div by lia. f_equal. lia.
  - assert (H2 : 0 <= shr_m (iter_pos shr_1 p mrs)).
    { rewrite IH by exact H. apply Z.div_pos; [exact H | apply Z.pow_pos_nonneg; lia]. }
    rewrite IH by exact H2. rewrite IH by exact H.
    change (Zpos p~0) with (2 * Zpos p).
    replace (2 * Zpos p) with (Zpos p + Zpos p) by lia.
    assert (0 < 2 ^ Zpos p) by (apply Z.pow_pos_nonneg; lia).
    rewrite !Z.pow_add_r by lia.
    rewrite !Z.div_div by lia. reflexivity.
  - rewrite shr_m_shr_1 by exact H. reflexivity.
Qed.

Lemma round_nearest_even_bounds q l :
  q <= round_nearest_even q l <= q + 1.
Proof.
  unfold round_nearest_even. destruct l as [| []]; try lia.
  destruct (Z.even q); lia.
Qed.

(** Integers of more than 53 bits convert to a finite double with
    positive exponent. *)
Lemma of_Z_big m :
  54 <= Zpos (digits2_pos m) <= 1023 ->
  exists mz e, Double.of_Z (Zpos m) = S754_finite false mz e /\ 1 <= e.
Proof.
  intros Hd. pose proof (digits2_pos_bounds m) as [Blo Bhi].
  unfold Double.of_Z, Double.prec, Double.emax, binary_normalize, binary_round.
  remember (Zpos (digits2_pos m)) as d eqn:Ed.
  replace (fexp 53 1024 (d + 0)) with (d - 53) by (unfold fexp, emin; lia).
  assert (Hs : shl_align m 0 (d - 53) = (m, 0)).
  { unfold shl_align. destruct (d - 53 - 0) eqn:E; try reflexivity. lia. }
  rewrite Hs. unfold binary_round_aux.
  assert (exists p, d - 53 = Zpos p) as [p Hp].
  { destruct (d - 53) as [| p | p] eqn:E; try lia. eauto. }
  assert (Hshr : shr_fexp 53 1024 (Zpos m) 0 loc_Exact
          = (iter_pos shr_1 p {| shr_m := Zpos m; shr_r := false; shr_s := false |},
             d - 53)).
  { unfold shr_fexp, Zdigits2. rewrite <- Ed.
    replace (fexp 53 1024 (d + 0) - 0) with (Zpos p) by (unfold fexp, emin; lia).
    unfold shr, shr_record_of_loc. f_equal. lia. }
  rewrite Hshr.
  remember (iter_pos shr_1 p {| shr_m := Zpos m; shr_r := false; shr_s := false |}) as mrs'.
  assert (Hq : shr_m mrs' = Zpos m / 2 ^ (d - 53)).
  { subst mrs'. rewrite shr_m_iter by (simpl; lia). simpl shr_m. rewrite Hp. reflexivity. }
  assert (Hpow : 0 < 2 ^ (d - 53)) by (apply Z.pow_pos_nonneg; lia).
  assert (Hlo : 2 ^ 52 <= shr_m mrs').
  { rewrite Hq. apply Z.div_le_lower_bound; [exact Hpow |].
    replace (2 ^ (d - 53) * 2 ^ 52) with (2 ^ (d - 1)); [exact Blo |].
    rewrite <- Z.pow_add_r by lia. f_equal. lia. }
  assert (Hhi : shr_m mrs' < 2 ^ 53).
  { rewrite Hq. apply Z.div_lt_upper_bound; [exact Hpow |].
    replace (2 ^ (d - 53) * 2 ^ 53) with (2 ^ d); [exact Bhi |].
    rewrite <- Z.pow_add_r by lia. f_equal. lia. }
  pose proof (round_nearest_even_bounds (shr_m mrs') (loc_of_shr_record mrs')) as Hr.
  remember (round_nearest_even (shr_m mrs') (loc_of_shr_record mrs')) as r.
  destruct r as [| pr | pr]; try lia.
  destruct (Z_lt_le_dec (Zpos pr) (2 ^ 53)) as [Lt | Ge].
  - assert (Hdr : Zpos (digits2_pos pr) = 53).
    { apply digits2_pos_unique. change (53 - 1) with 52. lia. }
    rewrite (shr_fexp_canonical pr (d - 53) Hdr) by lia.
    cbv [shr_m].
    destruct (d - 53 <=? 1024 - 53) eqn:L; [| apply Z.leb_gt in L; lia].
    exists pr, (d - 53). split; [reflexivity | lia].
  - assert (Zpos pr = 2 ^ 53) as Epr by lia.
    assert (pr = 9007199254740992%positive) as -> by (apply Pos2Z.inj; exact Epr).
    unfold shr_fexp. cbv [Zdigits2 digits2_pos Pos.succ].
    replace (fexp 53 1024 (54 + (d - 53)) - (d - 53)) with 1 by (unfold fexp, emin; lia).
    cbv [shr shr_record_of_loc iter_pos shr_1 shr_m].
    destruct (d - 53 + 1 <=? 1024 - 53) eqn:L; [| apply Z.leb_gt in L; lia].
    eexists _, _. split; [reflexivity | lia].
Qed.

(** A positive [long] compares with an exactly representable constant
    as the integers do. *)
Lemma ltb_of_long time c :
  0 < c < 2 ^ 53 -> 0 < time <= Long.max ->
  Double.ltb (Double.of_Z time) (Double.of_Z c) = (time <? c).
Proof.
  intros Hc Ht.
  destruct (Z_lt_le_dec time (2 ^ 53)) as [Small | Big].
  - apply ltb_of_Z_exact; lia.
  - destruct time as [| m | m]; try lia.
    destruct c as [| mc | mc]; try lia.
    pose proof (digits2_pos_bounds m) as [Blo Bhi].
    assert (D1 : Zpos (digits2_pos m) <= 63).
    { apply digits2_pos_le; [lia |]. unfold Long.max, Long.two63 in Ht.
      change (2 ^ 63) with 9223372036854775808. lia. }
    assert (D2 : 54 <= Zpos (digits2_pos m)).
    { destruct (Z_lt_le_dec (Zpos (digits2_pos m)) 54) as [L | G]; [| exact G].
      assert (2 ^ Zpos (digits2_pos m) <= 2 ^ 53) by (apply Z.pow_le_mono_r; lia).
      lia. }
    destruct (of_Z_big m ltac:(lia)) as (mz & e & Em & He).
    pose proof (digits2_pos_le mc 53 ltac:(lia) ltac:(lia)) as Dc.
    destruct (of_Z_exact mc Dc) as (zc & Ec & _).
    rewrite Em, Ec. unfold Double.ltb, SFltb, SFcompare.
    destruct (Z.compare_spec e (Zpos (digits2_pos mc) - 53)); try lia;
      destruct (Z.ltb_spec (Zpos m) (Zpos mc)); try lia; reflexivity.
Qed.

(** ** Formatting *)

(** C8. With the unit [Default], [printTimeString] writes a [long]
    below 5000 in nanoseconds, one below 5 000 000 in microseconds,
    one below 5 000 000 000 in milliseconds and any other in seconds;
    it does the same with a double that holds a positive integer. *)
Theorem auto_unit_thresholds outstream pad :
  (forall time : Z,
      Long.fits time ->
      printTimeString outstream time Default pad
      = printPaddedString outstream
          (if time <? 5000 then
             put_integer time ++ "ns"
           else if time <? 5000000 then
             put_fixed3 (Double.div (Double.of_Z time) (Double.of_Z 1000)) ++ "us"
           else if time <? 5000000000 then
             put_fixed3 (Double.div (Double.of_Z time) (Double.of_Z 1000000)) ++ "ms"
           else
             put_fixed3 (Double.div (Double.of_Z time) (Double.of_Z 1000000000)) ++ "s")
          pad) /\
  (forall n : Z,
      0 < n < 2 ^ 53 ->
      printTimeString outstream (Double.of_Z n) Default pad
      = printPaddedString outstream
          (if n <? 5000 then
             put_fixed3 (Double.of_Z n) ++ "ns"
           else if n <? 5000000 then
             put_fixed3 (Double.div (Double.of_Z n) (Double.of_Z 1000)) ++ "us"
           else if n <? 5000000000 then
             put_fixed3 (Double.div (Double.of_Z n) (Double.of_Z 1000000)) ++ "ms"
           else
             put_fixed3 (Double.div (Double.of_Z n) (Double.of_Z 1000000000)) ++ "s")
          pad).
Proof.
  split.
  - intros time [_ Hmax]. unfold printTimeString. f_equal.
    cbv [lt_int to_double put TimeValue_long].
    destruct (Z.ltb_spec time 5000) as [L | G]; [reflexivity |].
    rewrite !ltb_of_long by (simpl; lia). reflexivity.
  - intros n Hn. unfold printTimeString. f_equal.
    cbv [lt_int to_double put TimeValue_double].
    rewrite !ltb_of_Z_exact by (simpl; lia). reflexivity.
Qed.

Lemma auto_unit_thresholds_witness :
  Long.fits 4999 /\ Long.fits 5000 /\ Long.fits 4999999 /\ Long.fits 5000000 /\
  printTimeString EmptyString 4999 Default 0 = "4999ns"%string /\
  printTimeString EmptyString 5000 Default 0 = "5.000us"%string /\
  printTimeString EmptyString 4999999 Default 0 = "4999.999us"%string /\
  printTimeString EmptyString 5000000 Default 0 = "5.000ms"%string /\
  printTimeString EmptyString (Double.of_Z 200) Default 0 = "200.000ns"%string.
Proof.
  assert (F : forall z, -9223372036854775808 <= z <= 9223372036854775807 -> Long.fits z)
    by (intros z H; exact H).
  assert (F1 : Long.fits 4999) by (apply F; lia).
  assert (F2 : Long.fits 5000) by (apply F; lia).
  assert (F3 : Long.fits 4999999) by (apply F; lia).
  assert (F4 : Long.fits 5000000) by (apply F; lia).
  destruct (auto_unit_thresholds EmptyString 0) as [HZ HD].
  split; [exact F1 |]. split; [exact F2 |]. split; [exact F3 |].
  split; [exact F4 |].
  split; [rewrite (HZ 4999 F1); reflexivity |].
  split; [rewrite (HZ 5000 F2); reflexivity |].
  split; [rewrite (HZ 4999999 F3); reflexivity |].
  split; [rewrite (HZ 5000000 F4); reflexivity |].
  rewrite (HD 200) by (simpl; lia). reflexivity.
Defined.

(** ** Statistics *)

(** C6. Over the runs 100, 200 and 300 ns [printStats] computes the
    mean 200, the variance 10000 with divisor [count - 1 = 2], whose
    square root is 100, the minimum 100, the maximum 300 and the sum
    600, and writes them as one row. *)
Theorem stats_of_three_runs :
  computeStats [100; 200; 300]
  = {| stats_max := 300; stats_min := 100; stats_sum := 600; stats_count := 3;
       stats_mean := Double.of_Z 200; stats_var := Double.of_Z 10000 |} /\
  SizeT.sub (stats_count (computeStats [100; 200; 300])) 1 = 2 /\
  Double.sqrt (stats_var (computeStats [100; 200; 300])) = Double.of_Z 100 /\
  printStats EmptyString [100; 200; 300] Default
  = "         200.000ns +- 100.000ns              300ns           100ns           600ns      "%string.
Proof. repeat split; vm_compute; reflexivity. Qed.

(** Both loops of [printStats] skip the entries equal to -1. *)
Lemma fold_left_valid_times {A : Type} (f : A -> Z -> A) :
  (forall a, f a (-1) = a) ->
  forall run_times a,
    fold_left f run_times a = fold_left f (valid_times run_times) a.
Proof.
  intros Hskip. unfold valid_times.
  induction run_times as [| time l IH]; intros a; simpl; [reflexivity |].
  destruct (Z.eqb_spec time (-1)) as [-> | Hne]; simpl.
  - rewrite Hskip. apply IH.
  - apply IH.
Qed.

Lemma computeStats_valid_times run_times :
  computeStats run_times = computeStats (valid_times run_times).
Proof.
  unfold computeStats.
  rewrite <- (fold_left_valid_times tally_step) by reflexivity.
  rewrite <- (fold_left_valid_times (var_step _)) by reflexivity.
  reflexivity.
Qed.

Lemma valid_times_no_sentinel run_times :
  Forall (fun time => time <> -1) (valid_times run_times).
Proof.
  unfold valid_times. apply Forall_forall. intros x Hx.
  apply filter_In in Hx. destruct Hx as [_ Hx].
  destruct (Z.eqb_spec x (-1)); [discriminate | assumption].
Qed.

(** The counter of the first loop, which wraps like a [size_t]. *)
Lemma tally_count_valid l :
  Forall (fun time => time <> -1) l ->
  forall a,
    tally_count (fold_left tally_step l a)
    = match l with
      | [] => tally_count a
      | _ => SizeT.wrap (tally_count a + Z.of_nat (List.length l))
      end.
Proof.
  induction 1 as [| time l Hne Hl IH]; intros a; [reflexivity |].
  simpl fold_left. rewrite IH.
  unfold tally_step. destruct (Z.eqb_spec time (-1)); [contradiction |].
  simpl tally_count. unfold SizeT.add, SizeT.wrap, Long.two64.
  destruct l as [| time' l'].
  - simpl. f_equal.
  - rewrite Zplus_mod_idemp_l. f_equal.
    change (List.length (time :: time' :: l')) with (S (List.length (time' :: l'))).
    lia.
Qed.

Lemma valid_times_length run_times :
  (List.length (valid_times run_times) <= List.length run_times)%nat.
Proof. unfold valid_times. apply filter_length_le. Qed.

Lemma computeStats_count run_times :
  Z.of_nat (List.length run_times) < Long.two64 ->
  stats_count (computeStats run_times)
  = Z.of_nat (List.length (valid_times run_times)).
Proof.
  intros Hlen. rewrite computeStats_valid_times.
  unfold computeStats. simpl stats_count.
  rewrite (tally_count_valid _ (valid_times_no_sentinel run_times)).
  pose proof (valid_times_length run_times) as Hle.
  destruct (valid_times run_times) as [| time l] eqn:E; [reflexivity |].
  unfold SizeT.wrap, Long.two64 in *. simpl tally_count.
  apply Z.mod_small. lia.
Qed.

(** C7. [printStats] computes its statistics over the entries other
    than -1 alone ([valid_times]) and counts them.  Without any such
    entry the mean is the NaN of 0.0 / 0 and the text is "None of the
    runs had valid times!"; otherwise the text is the row, followed by
    the warning with the count and the total exactly when an entry was
    skipped. *)
Theorem stats_skip_invalid_entries stream run_times print_time_unit :
  Z.of_nat (List.length run_times) < Long.two64 ->
  let valid := valid_times run_times in
  let count := Z.of_nat (List.length valid) in
  let size := Z.of_nat (List.length run_times) in
  computeStats run_times = computeStats valid /\
  stats_count (computeStats run_times) = count /\
  (count = 0 -> stats_mean (computeStats run_times) = S754_nan) /\
  printStats stream run_times print_time_unit
  = if count =? 0 then (stream ++ none_valid)%string
    else if count =? size then
      printStatsRow stream (computeStats valid) print_time_unit
    else
      (printStatsRow stream (computeStats valid) print_time_unit
         ++ warning count size)%string.
Proof.
  intros Hlen valid count size.
  pose proof (computeStats_valid_times run_times) as Hstats.
  pose proof (computeStats_count run_times Hlen) as Hcount.
  fold valid in Hstats, Hcount. fold count in Hcount.
  split; [exact Hstats |]. split; [exact Hcount |]. split.
  - intros Hz. rewrite Hstats.
    assert (valid = []) as ->; [| reflexivity].
    subst count. destruct valid; [reflexivity | simpl in Hz; lia].
  - unfold printStats. rewrite Hcount. fold size.
    destruct (count =? 0); [reflexivity |].
    rewrite Hstats. destruct (count =? size); reflexivity.
Qed.

Lemma stats_skip_invalid_entries_witness :
  Z.of_nat (List.length [100; -1; 300]) < Long.two64 /\
  valid_times [100; -1; 300] = [100; 300] /\
  stats_count (computeStats [100; -1; 300]) = 2 /\
  stats_sum (computeStats [100; -1; 300]) = 400 /\
  stats_min (computeStats [100; -1; 300]) = 100 /\
  stats_max (computeStats [100; -1; 300]) = 300 /\
  stats_mean (computeStats [100; -1; 300]) = Double.of_Z 200 /\
  printStats EmptyString [100; -1; 300] Default
  = (printStatsRow EmptyString (computeStats [100; 300]) Default
       ++ endl ++ "Warning: Only 2 of 3 had valid times!")%string /\
  printStats EmptyString [-1; -1] Default
  = "None of the runs had valid times!"%string.
Proof.
  assert (H3 : Z.of_nat (List.length [100; -1; 300]) < Long.two64) by reflexivity.
  assert (H2 : Z.of_nat (List.length [-1; -1]) < Long.two64) by reflexivity.
  destruct (stats_skip_invalid_entries EmptyString [100; -1; 300] Default H3)
    as (S3 & C3 & _ & P3).
  destruct (stats_skip_invalid_entries EmptyString [-1; -1] Default H2)
    as (_ & _ & _ & P2).
  split; [exact H3 |]. split; [reflexivity |]. split; [exact C3 |].
  split; [rewrite S3; reflexivity |]. split; [rewrite S3; reflexivity |].
  split; [rewrite S3; reflexivity |]. split; [rewrite S3; reflexivity |].
  split; [exact P3 | exact P2].
Defined.

(* ===================================================================== *)
(** * Further facts *)
(* ===================================================================== *)

(** ** Padding *)

Lemma string_length_append (a b : string) :
  String.length (a ++ b) = (String.length a + String.length b)%nat.
Proof. induction a as [| c a IH]; simpl; [reflexivity | rewrite IH; reflexivity]. Qed.

Lemma string_append_nil_r (a : string) : (a ++ "")%string = a.
Proof. induction a as [| c a IH]; simpl; [reflexivity | rewrite IH; reflexivity]. Qed.

Lemma spaces_length n : String.length (spaces n) = n.
Proof. induction n as [| n IH]; simpl; [reflexivity | rewrite IH; reflexivity]. Qed.

Lemma strlen_append (a b : string) : strlen (a ++ b) = strlen a + strlen b.
Proof. unfold strlen. rewrite string_length_append. lia. Qed.

Lemma strlen_nonneg (a : string) : 0 <= strlen a.
Proof. unfold strlen. lia. Qed.

(** X1. A text no longer than the field is centred in it: half of the
    free width, rounded down, goes to the left and the rest to the
    right, so that exactly [pad] characters are written; a field of
    width 0 writes the text alone, whatever its length. *)
Theorem printPaddedString_centres stream text pad :
  (strlen text <= pad < Long.two64 ->
   let left := (pad - strlen text) / 2 in
   let right := pad - strlen text - left in
   printPaddedString stream text pad
   = (((stream ++ spaces (Z.to_nat left)) ++ text) ++ spaces (Z.to_nat right))%string /\
   left <= right <= left + 1 /\
   strlen (printPaddedString stream text pad) = strlen stream + pad) /\
  printPaddedString stream text 0 = (stream ++ text)%string.
Proof.
  split.
  - intros Hpad left right. pose proof (strlen_nonneg text) as Hlen.
    assert (Hleft : 0 <= left <= pad - strlen text).
    { subst left. split; [apply Z.div_pos; lia |].
      apply Z.div_le_upper_bound; lia. }
    assert (E : printPaddedString stream text pad
                = (((stream ++ spaces (Z.to_nat left)) ++ text)
                     ++ spaces (Z.to_nat right))%string).
    { unfold printPaddedString, SizeT.sub, SizeT.add, SizeT.wrap, Long.two64 in *.
      destruct (Z.eqb_spec pad 0) as [Hz | Hnz].
      - assert (strlen text = 0) as Hl0 by lia.
        subst left right. rewrite Hz, Hl0. reflexivity.
      - rewrite (Z.mod_small (pad - strlen text)) by lia. fold left.
        rewrite (Z.mod_small (left + strlen text)) by lia.
        subst right. do 2 f_equal. lia. }
    split; [exact E |]. split.
    + subst left right.
      pose proof (Z.div_mod (pad - strlen text) 2 ltac:(lia)) as D.
      pose proof (Z.mod_pos_bound (pad - strlen text) 2 ltac:(lia)). lia.
    + rewrite E. rewrite !strlen_append. unfold strlen at 2 4.
      rewrite !spaces_length. lia.
  - unfold printPaddedString, SizeT.add, SizeT.wrap. rewrite Z.eqb_refl.
    change (spaces (Z.to_nat 0)) with EmptyString.
    rewrite string_append_nil_r.
    pose proof (Z.mod_pos_bound (0 + strlen text) Long.two64 ltac:(reflexivity)).
    replace (Z.to_nat (0 - (0 + strlen text) mod Long.two64)) with O by lia.
    apply string_append_nil_r.
Qed.

Lemma printPaddedString_centres_witness :
  printPaddedString "|"%string "300ns"%string 16 = "|     300ns      "%string /\
  printPaddedString "|"%string "300ns"%string 0 = "|300ns"%string.
Proof.
  destruct (printPaddedString_centres "|"%string "300ns"%string 16) as [H _].
  destruct (printPaddedString_centres "|"%string "300ns"%string 0) as [_ H0].
  assert (Hpad : strlen "300ns"%string <= 16 < Long.two64) by (vm_compute; split; congruence).
  destruct (H Hpad) as (E & _ & _).
  split; [exact E | exact H0].
Defined.



(** ** What [stop()] adds, case by case *)

Lemma cpu_outer_exact ca ta :
  cpu_reading ca -> cpu_reading ta -> Long.sub ta ca = ta - ca.
Proof.
  unfold cpu_reading, Long.sub. intros Ha Hta.
  apply Long_wrap_fits. unfold Long.fits, Long.min, Long.max, Long.two63. lia.
Qed.

(** The state after a [stop()] on a running timer with readings in
    range, and what the assertions of a build that has them say. *)
Lemma stop_running_exact NDEBUG t clk t' :
  running_ t = true ->
  readings_in_range t clk ->
  stop NDEBUG t clk = Done t' ->
  elapsed_time_ t' = Long.add (elapsed_time_ t) (wall_added t clk) /\
  elapsed_cpu_time_ t'
  = match cpu_added t clk with
    | Some cpu => Long.add (elapsed_cpu_time_ t) cpu
    | None => elapsed_cpu_time_ t
    end /\
  (NDEBUG = false ->
   0 <= wall_added t clk /\
   match cpu_added t clk with Some cpu => 0 <= cpu | None => True end) /\
  cpu_time_valid_a_ t' = cpu_time_valid_a_ t && is_some (cpu_stop_a clk) /\
  cpu_time_valid_b_ t'
  = cpu_time_valid_b_ t
    && (negb (cpu_time_valid_a_ t) || is_some (cpu_stop_b clk)).
Proof.
  intros Hrun (Hsa & Hsb & Hpb & Hpa & Hca & Hcb & Htb & Hta) Hstop.
  assert (Hdrift : - 1152921504606846976 < cpu_drift t clk < 1152921504606846976).
  { unfold cpu_drift, D_outer_cpu, D_inner_cpu, cpu_reading_opt, cpu_reading in *.
    destruct (cpu_time_valid_a_ t), (cpu_time_valid_b_ t),
      (cpu_stop_b clk), (cpu_stop_a clk); lia. }
  revert Hdrift.
  unfold wall_added, cpu_added, cpu_drift, D_inner, D_outer, D_inner_cpu, D_outer_cpu.
  unfold cpu_reading_opt in *.
  unfold stop, bind, assert, getCpuTime in Hstop. rewrite Hrun in Hstop.
  simpl in Hstop.
  destruct (cpu_time_valid_a_ t) eqn:Va, (cpu_time_valid_b_ t) eqn:Vb,
           (cpu_stop_b clk) as [tb|] eqn:Rb, (cpu_stop_a clk) as [ta|] eqn:Ra;
    simpl in Hstop; intros Hdrift;
    repeat first
      [ rewrite (cpu_diff_exact _ _ _ _ Hca Hcb Hta Htb) in Hstop
      | rewrite (cpu_elapsed_exact _ _ _ _ Hca Hcb Hta Htb) in Hstop
      | rewrite (cpu_outer_exact _ _ Hca Hta) in Hstop
      | rewrite (wall_elapsed_exact _ _ _ _ _ Hsa Hsb Hpa Hpb) in Hstop by lia
      | match type of Hstop with
        | context [NDEBUG || ?c] =>
            destruct (NDEBUG || c) eqn:?; cbv beta iota in Hstop
        end ];
    try discriminate; inversion Hstop; subst t';
    cbn [elapsed_time_ elapsed_cpu_time_ cpu_time_valid_a_ cpu_time_valid_b_
         is_some andb orb negb];
    (split; [f_equal; lia |]);
    (split; [reflexivity |]);
    (split; [| split; reflexivity]);
    intros HN; subst NDEBUG;
    repeat match goal with
           | H : false || (0 <=? _) = true |- _ =>
               cbn [orb] in H; apply Z.leb_le in H
           end;
    repeat split; lia.
Qed.

(** ** Elapsed time while the timer runs *)

(** X3. Read twice, [getElapsedTime()] does not go back when the wall
    clock does not: on a running timer the two results differ by the
    time between the two readings, on a stopped timer both are the
    accumulator.  (Readings and accumulator in the range where the
    additions do not overflow.) *)
Theorem getElapsedTime_monotone t now1 now2 :
  wall_reading (start_b_ t) -> wall_reading now1 -> wall_reading now2 ->
  - 4611686018427387904 <= elapsed_time_ t <= 4611686018427387904 ->
  now1 <= now2 ->
  getElapsedTime t now1 <= getElapsedTime t now2 /\
  (running_ t = true ->
   getElapsedTime t now2 - getElapsedTime t now1 = now2 - now1) /\
  (running_ t = false ->
   getElapsedTime t now1 = elapsed_time_ t /\
   getElapsedTime t now2 = elapsed_time_ t).
Proof.
  unfold wall_reading, getElapsedTime, internalGetDuration, Long.add, Long.sub.
  intros Hs H1 H2 Hacc Hle.
  assert (F : forall now, 0 <= now < 2305843009213693952 ->
                Long.wrap (elapsed_time_ t + Long.wrap (now - start_b_ t))
                = elapsed_time_ t + (now - start_b_ t)).
  { intros now Hn.
    rewrite (Long_wrap_fits (now - start_b_ t))
      by (unfold Long.fits, Long.min, Long.max, Long.two63; lia).
    apply Long_wrap_fits. unfold Long.fits, Long.min, Long.max, Long.two63. lia. }
  destruct (running_ t).
  - rewrite (F now1 H1), (F now2 H2). repeat split; try lia; discriminate.
  - repeat split; try lia; discriminate.
Qed.

Lemma getElapsedTime_monotone_witness :
  getElapsedTime even_timer 2000 <= getElapsedTime even_timer 3000 /\
  getElapsedTime even_timer 3000 - getElapsedTime even_timer 2000 = 1000.
Proof.
  assert (W : forall v, 0 <= v < 2305843009213693952 -> wall_reading v)
    by (intros v H; exact H).
  destruct (getElapsedTime_monotone even_timer 2000 3000) as (H1 & H2 & _);
    try (apply W; cbn; lia); try (cbn; lia).
  split; [exact H1 | exact (H2 eq_refl)].
Defined.

(** ** Intervals and the CPU clock *)

Lemma start_stopped_fields t sc :
  running_ t = false ->
  running_ (start t sc) = true /\
  run_times_ (start t sc) = run_times_ t /\
  cpu_run_times_ (start t sc) = cpu_run_times_ t /\
  elapsed_time_ (start t sc) = elapsed_time_ t /\
  elapsed_cpu_time_ (start t sc) = elapsed_cpu_time_ t /\
  start_a_ (start t sc) = now_start_a sc /\
  start_b_ (start t sc) = now_start_b sc /\
  cpu_time_valid_a_ (start t sc) = is_some (cpu_start_a sc) /\
  cpu_time_valid_b_ (start t sc) = is_some (cpu_start_b sc) /\
  (forall v, cpu_start_a sc = Some v -> cpu_start_a_ (start t sc) = v) /\
  (forall v, cpu_start_b sc = Some v -> cpu_start_b_ (start t sc) = v).
Proof.
  intros H. unfold start, getCpuTime. rewrite H.
  destruct (cpu_start_a sc), (cpu_start_b sc); simpl; repeat split;
    intros v E; inversion E; reflexivity.
Qed.

(** X4. An interval whose first CPU reading at [start()] fails leaves
    the CPU accumulator alone and the CPU time of the run invalid:
    [getElapsedCpuTime()] is -1, [getCpuRunTimes()] is the stored
    history, and a [reset( true )] that commits the run stores -1
    beside the wall time. *)
Theorem interval_without_cpu_clock NDEBUG t sc ec t1 :
  running_ t = false ->
  cpu_start_a sc = None ->
  stop NDEBUG (start t sc) ec = Done t1 ->
  elapsed_cpu_time_ t1 = elapsed_cpu_time_ t /\
  (forall cpu_now, getElapsedCpuTime t1 cpu_now = -1) /\
  (forall cpu_now, getCpuRunTimes t1 cpu_now = cpu_run_times_ t) /\
  (forall clk,
      0 < elapsed_time_ t1 ->
      exists t2,
        reset NDEBUG true t1 clk = Done t2 /\
        run_times_ t2 = run_times_ t ++ [elapsed_time_ t1] /\
        cpu_run_times_ t2 = cpu_run_times_ t ++ [-1]).
Proof.
  intros Hs Hnone Hstop.
  destruct (start_stopped_fields t sc Hs)
    as (Hr & Hrt & Hct & _ & Hcpu & _ & _ & Hva & _).
  rewrite Hnone in Hva. simpl in Hva.
  destruct (stop_frame _ _ _ _ Hstop) as (F1 & F2 & F3).
  assert (Hres : elapsed_cpu_time_ t1 = elapsed_cpu_time_ (start t sc) /\
                 cpu_time_valid_a_ t1 = false).
  { unfold stop, bind, assert in Hstop. rewrite Hr, Hva in Hstop. simpl in Hstop.
    destruct (NDEBUG || _) in Hstop; [| discriminate].
    inversion Hstop. simpl. auto. }
  destruct Hres as [Hacc Hinv].
  split; [congruence |].
  assert (G : forall cpu_now, getElapsedCpuTime t1 cpu_now = -1).
  { intros cpu_now. unfold getElapsedCpuTime. rewrite Hinv. reflexivity. }
  split; [exact G |]. split.
  - intros cpu_now. unfold getCpuRunTimes. rewrite G. simpl. congruence.
  - intros clk Hpos. exists (reset_stopped true t1).
    split; [unfold reset; rewrite (stop_stopped _ _ _ F3); reflexivity |].
    unfold reset_stopped. apply Z.ltb_lt in Hpos. rewrite Hpos, Hinv. simpl.
    split; congruence.
Qed.

Lemma interval_without_cpu_clock_witness :
  exists t2,
    reset false true wall_only_stopped wall_only_stop_clock = Done t2 /\
    run_times_ t2 = [4020] /\ cpu_run_times_ t2 = [-1].
Proof.
  destruct (interval_without_cpu_clock false render_timer wall_only_start_clock
              wall_only_stop_clock wall_only_stopped eq_refl eq_refl eq_refl)
    as (_ & _ & _ & H).
  destruct (H wall_only_stop_clock eq_refl) as (t2 & R & H1 & H2).
  exists t2. split; [exact R | split; [exact H1 | exact H2]].
Defined.

(** X5. The validity flags after an interval depend on the readings of
    that interval alone: whatever the flags were before [start()], the
    outer flag is true exactly when both outer CPU readings succeeded,
    and the inner flag when the inner start reading succeeded and the
    inner stop reading, if it was taken, did too.  A later interval
    with a working CPU clock thus makes the CPU time of the run valid
    again. *)
Theorem cpu_validity_per_interval NDEBUG t sc ec t1 :
  running_ t = false ->
  stop NDEBUG (start t sc) ec = Done t1 ->
  cpu_time_valid_a_ t1 = is_some (cpu_start_a sc) && is_some (cpu_stop_a ec) /\
  cpu_time_valid_b_ t1
  = is_some (cpu_start_b sc)
    && (negb (is_some (cpu_start_a sc)) || is_some (cpu_stop_b ec)).
Proof.
  intros Hs Hstop.
  destruct (start_stopped_fields t sc Hs)
    as (Hr & _ & _ & _ & _ & _ & _ & Hva & Hvb & _).
  unfold stop, bind, assert, getCpuTime in Hstop.
  rewrite Hr, Hva, Hvb in Hstop. simpl in Hstop.
  destruct (cpu_start_a sc), (cpu_start_b sc), (cpu_stop_b ec), (cpu_stop_a ec);
    simpl in Hstop;
    repeat match type of Hstop with
           | context [NDEBUG || ?c] =>
               destruct (NDEBUG || c); cbv beta iota in Hstop
           end;
    try discriminate; inversion Hstop; simpl; auto.
Qed.

Lemma cpu_validity_per_interval_witness :
  cpu_time_valid_a_ wall_only_stopped = false /\
  exists t1,
    stop false (start wall_only_stopped even_start_clock) even_stop_clock = Done t1 /\
    cpu_time_valid_a_ t1 = true /\ cpu_time_valid_b_ t1 = true.
Proof.
  split; [reflexivity |].
  eexists. split; [reflexivity |].
  exact (cpu_validity_per_interval false wall_only_stopped even_start_clock
           even_stop_clock _ eq_refl eq_refl).
Defined.

(** X6. When the outer pair of CPU readings is valid and the inner one
    is not (its start reading or its stop reading failed), [stop()]
    adds the plain outer difference [time_a - cpu_start_a_] to the CPU
    accumulator, applies no CPU term to the wall duration, and leaves
    the inner flag false. *)
Theorem stop_cpu_outer_only NDEBUG t clk t' time_a :
  running_ t = true ->
  readings_in_range t clk ->
  cpu_time_valid_a_ t = true ->
  cpu_time_valid_b_ t = false \/ cpu_stop_b clk = None ->
  cpu_stop_a clk = Some time_a ->
  stop NDEBUG t clk = Done t' ->
  elapsed_cpu_time_ t' = Long.add (elapsed_cpu_time_ t) (time_a - cpu_start_a_ t) /\
  elapsed_time_ t'
  = Long.add (elapsed_time_ t)
      (D_inner t clk + D_inner t clk ÷ 2 - D_outer t clk ÷ 2) /\
  cpu_time_valid_a_ t' = true /\ cpu_time_valid_b_ t' = false.
Proof.
  intros Hrun Hin Va Hb Ra Hstop.
  destruct (stop_running_exact _ _ _ _ Hrun Hin Hstop) as (Hw & Hc & _ & Fa & Fb).
  assert (Hadd : cpu_added t clk = Some (D_outer_cpu t time_a)).
  { unfold cpu_added. rewrite Va, Ra.
    destruct Hb as [Hb | Hb]; rewrite Hb; [reflexivity |].
    destruct (cpu_time_valid_b_ t); reflexivity. }
  assert (Hd : cpu_drift t clk = 0).
  { unfold cpu_drift. rewrite Va.
    destruct Hb as [Hb | Hb]; rewrite Hb; [reflexivity |].
    destruct (cpu_time_valid_b_ t); reflexivity. }
  rewrite Hadd in Hc. unfold wall_added in Hw. rewrite Hd in Hw.
  split; [exact Hc |]. split; [rewrite Hw; f_equal; lia |].
  rewrite Fa, Fb, Va, Ra. simpl. split; [reflexivity |].
  destruct Hb as [Hb | Hb]; rewrite Hb; [reflexivity |].
  apply andb_false_r.
Qed.

(** A start whose inner CPU reading fails. *)
Lemma stop_cpu_outer_only_witness :
  let sc := {| now_start_a := 1000; now_start_b := 1010;
               cpu_start_a := Some 500; cpu_start_b := None |} in
  exists t',
    stop false (start render_timer sc) even_stop_clock = Done t' /\
    elapsed_cpu_time_ t' = 4015 /\ elapsed_time_ t' = 4020.
Proof.
  intros sc.
  assert (Hin : readings_in_range (start render_timer sc) even_stop_clock).
  { unfold readings_in_range, wall_reading, cpu_reading_opt, cpu_reading.
    cbn. lia. }
  eexists. split; [reflexivity |].
  destruct (stop_cpu_outer_only false (start render_timer sc) even_stop_clock _
              4515 eq_refl Hin eq_refl (or_introl eq_refl) eq_refl eq_refl)
    as (Hc & Hw & _).
  split; [rewrite Hc | rewrite Hw]; reflexivity.
Defined.

(** X7. In a build with assertions, a [stop()] that returns never
    lowers an accumulator: both stay non-negative, and so does
    [getElapsedTime()] afterwards.  (Readings in range, accumulators
    below 2^61 ns.) *)
Theorem stop_debug_accumulators_grow t clk t' now :
  readings_in_range t clk ->
  0 <= elapsed_time_ t < 2305843009213693952 ->
  0 <= elapsed_cpu_time_ t < 2305843009213693952 ->
  stop false t clk = Done t' ->
  elapsed_time_ t <= elapsed_time_ t' /\
  elapsed_cpu_time_ t <= elapsed_cpu_time_ t' /\
  0 <= getElapsedTime t' now.
Proof.
  intros Hin Hw Hc Hstop.
  assert (G : elapsed_time_ t <= elapsed_time_ t' /\
              elapsed_cpu_time_ t <= elapsed_cpu_time_ t').
  { destruct (running_ t) eqn:Hrun.
    2:{ rewrite (stop_stopped _ _ _ Hrun) in Hstop. inversion Hstop. lia. }
    destruct (stop_running_exact _ _ _ _ Hrun Hin Hstop)
      as (Ew & Ec & Hpos & _).
    destruct (Hpos eq_refl) as [Pw Pc].
    destruct Hin as (Hsa & Hsb & Hpb & Hpa & Hca & Hcb & Htb & Hta).
    assert (Bw : wall_added t clk < 6917529027641081856).
    { unfold wall_added, cpu_drift, D_inner, D_outer, D_inner_cpu, D_outer_cpu,
        wall_reading, cpu_reading_opt, cpu_reading in *.
      pose proof (quot2_double (now_stop_b clk - start_b_ t)).
      pose proof (rem2_bounds (now_stop_b clk - start_b_ t)).
      pose proof (quot2_double (now_stop_a clk - start_a_ t)).
      pose proof (rem2_bounds (now_stop_a clk - start_a_ t)).
      destruct (cpu_time_valid_a_ t), (cpu_time_valid_b_ t),
        (cpu_stop_b clk), (cpu_stop_a clk); lia. }
    rewrite Ew. unfold Long.add.
    rewrite (Long_wrap_fits (elapsed_time_ t + wall_added t clk))
      by (unfold Long.fits, Long.min, Long.max, Long.two63; lia).
    split; [lia |]. rewrite Ec.
    destruct (cpu_added t clk) as [cpu |] eqn:Ea; [| lia].
    assert (Bc : cpu < 2305843009213693952).
    { unfold cpu_added, cpu_drift, D_inner_cpu, D_outer_cpu,
        cpu_reading_opt, cpu_reading in *.
      destruct (cpu_time_valid_a_ t), (cpu_time_valid_b_ t),
        (cpu_stop_b clk) as [tb |], (cpu_stop_a clk) as [ta |];
        inversion Ea; subst cpu; try lia.
      pose proof (quot2_bounds (ta - cpu_start_a_ t - (tb - cpu_start_b_ t))
                    (-1152921504606846976) 1152921504606846976
                    ltac:(lia) ltac:(lia)).
      lia. }
    unfold Long.add.
    rewrite (Long_wrap_fits (elapsed_cpu_time_ t + cpu))
      by (unfold Long.fits, Long.min, Long.max, Long.two63; lia).
    lia. }
  destruct G as [G1 G2]. split; [exact G1 |]. split; [exact G2 |].
  unfold getElapsedTime.
  destruct (stop_frame _ _ _ _ Hstop) as (_ & _ & F). rewrite F. lia.
Qed.

Lemma stop_debug_accumulators_grow_witness :
  exists t',
    stop false even_timer even_stop_clock = Done t' /\
    elapsed_time_ even_timer <= elapsed_time_ t' /\
    elapsed_cpu_time_ even_timer <= elapsed_cpu_time_ t' /\
    0 <= getElapsedTime t' 0.
Proof.
  assert (Hin : readings_in_range even_timer even_stop_clock).
  { unfold readings_in_range, wall_reading, cpu_reading_opt, cpu_reading.
    cbn. lia. }
  eexists. split; [reflexivity |].
  apply (stop_debug_accumulators_grow even_timer even_stop_clock _ 0 Hin);
    [cbn; lia | cbn; lia | reflexivity].
Defined.

(** ** The scope guard *)

(** X8. [end()] is idempotent: once a call of it has returned, a
    second call (the destructor after an explicit [end()]) changes
    neither the timer nor the block, so the run is committed once.
    After [end()] the timer is stopped and the block marked ended. *)
Theorem TimeBlock_end_idempotent NDEBUG b clk clk' b1 :
  TimeBlock_end NDEBUG b clk = Done b1 ->
  TimeBlock_delete NDEBUG b1 clk' = Done b1 /\
  (ended_ b = false -> ended_ b1 = true) /\
  running_ (timer_ b1) = false.
Proof.
  unfold TimeBlock_delete, TimeBlock_end, reset. intros H.
  destruct (stop NDEBUG (timer_ b) clk) as [t1 |] eqn:E; simpl in H; [| discriminate].
  destruct (stop_frame _ _ _ _ E) as (_ & _ & F).
  destruct (ended_ b) eqn:Eb.
  - inversion H; subst b1; simpl.
    rewrite (stop_stopped _ _ _ F). simpl.
    split; [reflexivity |]. split; [reflexivity | exact F].
  - rewrite (stop_stopped _ _ _ F) in H. simpl in H.
    inversion H; subst b1; simpl.
    assert (R : running_ (reset_stopped true t1) = false).
    { unfold reset_stopped. destruct (0 <? elapsed_time_ t1); exact F. }
    rewrite (stop_stopped _ _ _ R). simpl.
    split; [reflexivity |]. split; [reflexivity | exact R].
Qed.

Lemma TimeBlock_end_idempotent_witness :
  exists b1,
    TimeBlock_end false (TimeBlock_new render_timer even_start_clock)
      even_stop_clock = Done b1 /\
    TimeBlock_delete false b1 late_stop_clock = Done b1 /\
    run_times_ (timer_ b1) = [4000].
Proof.
  eexists. split; [reflexivity |].
  split; [| reflexivity].
  exact (proj1 (TimeBlock_end_idempotent false
                  (TimeBlock_new render_timer even_start_clock)
                  even_stop_clock late_stop_clock _ eq_refl)).
Defined.

Lemma Long_add_0_fits w : Long.fits w -> Long.add 0 w = w.
Proof. intros H. unfold Long.add. rewrite Z.add_0_l. apply Long_wrap_fits, H. Qed.

Lemma interval_wall_fits clks : Long.fits (interval_wall clks).
Proof. destruct clks as [sc ec]. unfold interval_wall, Long.sub. apply Long_wrap_range. Qed.

(** The wall duration of an interval depends on its readings alone. *)
Lemma stop_start_wall NDEBUG t sc ec t1 :
  running_ t = false ->
  stop NDEBUG (start t sc) ec = Done t1 ->
  elapsed_time_ t1 = Long.add (elapsed_time_ t) (interval_wall (sc, ec)).
Proof.
  intros Hs Hstop.
  destruct (start_stopped_fields t sc Hs)
    as (Hr & _ & _ & Hw & _ & Ha & Hb & Hva & Hvb & Hca & Hcb).
  unfold stop, bind, assert, getCpuTime in Hstop.
  rewrite Hr, Hva, Hvb, Ha, Hb, Hw in Hstop. simpl in Hstop.
  unfold interval_wall, interval_cpu_diff.
  destruct (cpu_start_a sc) as [ca |], (cpu_start_b sc) as [cb |],
    (cpu_stop_b ec), (cpu_stop_a ec);
    simpl in Hstop;
    try rewrite (Hca _ eq_refl) in Hstop; try rewrite (Hcb _ eq_refl) in Hstop;
    repeat match type of Hstop with
           | context [NDEBUG || ?c] =>
               destruct (NDEBUG || c); cbv beta iota in Hstop
           end;
    try discriminate; inversion Hstop; reflexivity.
Qed.

(** One [draw]: the timer is stopped again, its accumulators are zero,
    and the histories have grown by the run when its wall duration is
    greater than zero. *)
Lemma draw_timed_step NDEBUG t clks t' :
  running_ t = false -> elapsed_time_ t = 0 ->
  draw_timed NDEBUG t clks = Done t' ->
  running_ t' = false /\ elapsed_time_ t' = 0 /\
  run_times_ t'
  = run_times_ t ++ committed_runs [interval_wall clks] /\
  List.length (cpu_run_times_ t')
  = (List.length (cpu_run_times_ t)
     + List.length (committed_runs [interval_wall clks]))%nat.
Proof.
  intros Hs Hz H. destruct clks as [sc ec].
  unfold draw_timed, TimeBlock_delete, TimeBlock_end, TimeBlock_new, reset in H.
  simpl in H.
  destruct (stop NDEBUG (start t sc) ec) as [t1 |] eqn:E; simpl in H; [| discriminate].
  destruct (stop_frame _ _ _ _ E) as (F1 & F2 & F3).
  rewrite (stop_stopped _ _ _ F3) in H. simpl in H. inversion H; subst t'.
  pose proof (stop_start_wall _ _ _ _ _ Hs E) as W.
  rewrite Hz, (Long_add_0_fits _ (interval_wall_fits (sc, ec))) in W.
  destruct (start_stopped_fields t sc Hs) as (_ & Hrt & Hct & _).
  remember (interval_wall (sc, ec)) as w eqn:Ew.
  unfold reset_stopped, committed_runs. rewrite W. cbn [filter].
  destruct (0 <? w);
    cbn [run_times_ cpu_run_times_ running_ elapsed_time_];
    rewrite ?F1, ?F2, ?Hrt, ?Hct; repeat split; auto.
  - rewrite length_app. reflexivity.
  - rewrite app_nil_r. reflexivity.
Qed.

Lemma draw_timed_ndebug_returns t clks : exists t', draw_timed true t clks = Done t'.
Proof.
  unfold draw_timed, TimeBlock_delete, TimeBlock_end, TimeBlock_new, reset. simpl.
  destruct (stop_ndebug_returns (start t (fst clks)) (snd clks)) as [t1 E].
  rewrite E. simpl.
  destruct (stop_ndebug_returns t1 (snd clks)) as [t2 E2]. rewrite E2. simpl.
  eauto.
Qed.

(** X9. After any number of calls of [draw] on the stopped static
    timer, the wall history has grown by the wall durations of the
    calls that are greater than zero, in the order of the calls, and
    the CPU history by as many entries; the timer is stopped with a
    zero accumulator.  Without assertions no call aborts. *)
Theorem draws_history NDEBUG calls :
  (forall t t',
      running_ t = false -> elapsed_time_ t = 0 ->
      draws NDEBUG t calls = Done t' ->
      let committed := committed_runs (map interval_wall calls) in
      run_times_ t' = run_times_ t ++ committed /\
      List.length (cpu_run_times_ t')
      = (List.length (cpu_run_times_ t) + List.length committed)%nat /\
      running_ t' = false /\ elapsed_time_ t' = 0) /\
  (forall t, exists t', draws true t calls = Done t').
Proof.
  split.
  - induction calls as [| clks calls IH]; intros t t' Hs Hz H; simpl in *.
    + inversion H; subst. unfold committed_runs. simpl. rewrite app_nil_r. auto.
    + destruct (draw_timed NDEBUG t clks) as [t1 |] eqn:E; simpl in H; [| discriminate].
      destruct (draw_timed_step _ _ _ _ Hs Hz E) as (R1 & Z1 & H1 & C1).
      destruct (IH t1 t' R1 Z1 H) as (H2 & C2 & R2 & Z2).
      unfold committed_runs in *. simpl in H1, C1. simpl.
      split; [| split; [| auto]].
      * rewrite H2, H1.
        destruct (0 <? interval_wall clks); simpl;
          rewrite <- app_assoc; reflexivity.
      * rewrite C2, C1. destruct (0 <? interval_wall clks); simpl; lia.
  - induction calls as [| clks calls IH]; intros t; simpl; [eauto |].
    destruct (draw_timed_ndebug_returns t clks) as [t1 E]. rewrite E. simpl.
    apply IH.
Qed.

Lemma draws_history_witness :
  exists t',
    draws false render_timer
      [(even_start_clock, even_stop_clock); (late_start_clock, even_stop_clock)]
    = Done t' /\
    run_times_ t' = [4000; 3835] /\
    List.length (cpu_run_times_ t') = 2%nat.
Proof.
  destruct (draws_history false
              [(even_start_clock, even_stop_clock);
               (late_start_clock, even_stop_clock)]) as [H _].
  eexists. split; [reflexivity |].
  destruct (H render_timer _ eq_refl eq_refl eq_refl) as (H1 & H2 & _).
  split; [rewrite H1 | rewrite H2]; reflexivity.
Defined.

(** ** The report *)

Lemma string_append_assoc (a b c : string) :
  ((a ++ b) ++ c)%string = (a ++ (b ++ c))%string.
Proof. induction a as [| x a IH]; simpl; [reflexivity | rewrite IH; reflexivity]. Qed.

Lemma printPaddedString_0 stream text :
  printPaddedString stream text 0 = (stream ++ text)%string.
Proof.
  unfold printPaddedString, SizeT.add, SizeT.wrap. rewrite Z.eqb_refl.
  change (spaces (Z.to_nat 0)) with EmptyString.
  rewrite string_append_nil_r.
  pose proof (Z.mod_pos_bound (0 + strlen text) Long.two64 ltac:(reflexivity)).
  replace (Z.to_nat (0 - (0 + strlen text) mod Long.two64)) with O by lia.
  apply string_append_nil_r.
Qed.

Lemma stop_keeps_name NDEBUG t clk t' :
  stop NDEBUG t clk = Done t' ->
  name_ t' = name_ t /\ print_time_unit_ t' = print_time_unit_ t /\
  print_on_destruct_ t' = print_on_destruct_ t.
Proof.
  destruct NDEBUG; stop_cases t clk; intros E; inversion E; subst; simpl; auto.
Qed.

Lemma reset_stopped_fields new_run t :
  name_ (reset_stopped new_run t) = name_ t /\
  print_time_unit_ (reset_stopped new_run t) = print_time_unit_ t /\
  running_ (reset_stopped new_run t) = running_ t /\
  elapsed_time_ (reset_stopped new_run t) = 0 /\
  elapsed_cpu_time_ (reset_stopped new_run t) = 0.
Proof.
  unfold reset_stopped.
  destruct new_run; [destruct (0 <? elapsed_time_ t) |]; simpl; auto.
Qed.

(** X10. After a [reset( false )] the report of the timer is the line
    "[Timer: <name>] 0 run(s) took: no time at all.", whatever the
    timer held before and whatever the clocks read. *)
Theorem toString_after_full_reset POSIX_THREAD_CPUTIME NDEBUG t clk t' now cpu_now :
  reset NDEBUG false t clk = Done t' ->
  toString POSIX_THREAD_CPUTIME t' now cpu_now
  = Some ("[Timer: " ++ name_ t ++ "] 0 run(s) took: no time at all.")%string.
Proof.
  unfold reset. intros H.
  destruct (stop NDEBUG t clk) as [t1 |] eqn:E; simpl in H; [| discriminate].
  inversion H; subst t'. clear H.
  destruct (stop_keeps_name _ _ _ _ E) as (N & _).
  destruct (stop_frame _ _ _ _ E) as (_ & _ & F).
  unfold toString, getRunTimes, getElapsedTime, reset_stopped. simpl.
  rewrite F. simpl. rewrite N. unfold internalPrint. simpl.
  rewrite !string_append_assoc. reflexivity.
Qed.

Lemma toString_after_full_reset_witness :
  toString true (reset_stopped false wall_only_stopped) 0 None
  = Some "[Timer: render] 0 run(s) took: no time at all."%string.
Proof.
  exact (toString_after_full_reset true false wall_only_stopped
           wall_only_stop_clock _ 0 None eq_refl).
Defined.

(** X11. The report reads [cpu_run_times[0]] whenever there is exactly
    one wall entry.  It is undefined (an access outside an empty
    vector) exactly when [getRunTimes()] has one entry and
    [getCpuRunTimes()] none: with empty histories, that is a current
    run of nonzero wall time whose CPU time is invalid or not greater
    than zero. *)
Theorem toString_undefined POSIX_THREAD_CPUTIME t now cpu_now :
  (toString POSIX_THREAD_CPUTIME t now cpu_now = None <->
   List.length (getRunTimes t now) = 1%nat /\ getCpuRunTimes t cpu_now = []) /\
  (run_times_ t = [] -> cpu_run_times_ t = [] ->
   getElapsedTime t now <> 0 -> getElapsedCpuTime t cpu_now <= 0 ->
   toString POSIX_THREAD_CPUTIME t now cpu_now = None).
Proof.
  assert (Iff : toString POSIX_THREAD_CPUTIME t now cpu_now = None <->
                List.length (getRunTimes t now) = 1%nat /\
                getCpuRunTimes t cpu_now = []).
  { unfold toString, internalPrint, vector_at.
    destruct (getRunTimes t now) as [| w [| w' l]];
      destruct (getCpuRunTimes t cpu_now) as [| c cl]; simpl;
      split; intros H; try discriminate; try (destruct H; discriminate);
      auto. }
  split; [exact Iff |].
  intros Hr Hc Hw Hcpu. apply Iff.
  unfold getRunTimes, getCpuRunTimes. rewrite Hr, Hc.
  destruct (Z.eqb_spec (getElapsedTime t now) 0); [contradiction |].
  destruct (Z.ltb_spec 0 (getElapsedCpuTime t cpu_now)); [lia |].
  simpl. auto.
Qed.

Lemma toString_undefined_witness :
  run_times_ wall_only_stopped = [] /\
  getElapsedTime wall_only_stopped 0 = 4020 /\
  getElapsedCpuTime wall_only_stopped None = -1 /\
  toString true wall_only_stopped 0 None = None.
Proof.
  destruct (toString_undefined true wall_only_stopped 0 None) as [_ H].
  split; [reflexivity |]. split; [reflexivity |]. split; [reflexivity |].
  apply H; [reflexivity | reflexivity | vm_compute; discriminate | vm_compute; discriminate].
Defined.

Lemma printTimeString_0 {T : Type} `{TimeValue T} stream (time : T) unit :
  printTimeString stream time unit 0
  = (stream ++ printTimeString EmptyString time unit 0)%string.
Proof. unfold printTimeString. rewrite !printPaddedString_0. reflexivity. Qed.

(** X12. [Timer::time] never stops its timer, so what it prints when
    the timer is destroyed are the uncorrected differences between
    the destructor's readings and the inner wall reading, resp. the
    outer CPU reading, of the constructor.  A wall difference of zero
    gives the line for no runs; otherwise a CPU difference greater
    than zero gives the one-run sentence; otherwise (CPU clock
    unavailable, or no CPU time spent) the report is undefined. *)
Theorem Timer_time_report POSIX_THREAD_CPUTIME name unit clk now cpu_now :
  let wall := Long.sub now (now_start_b clk) in
  let cpu :=
    match cpu_start_a clk, cpu_now with
    | Some time_start, Some time => Long.sub time time_start
    | _, _ => -1
    end in
  Timer_time POSIX_THREAD_CPUTIME name unit clk now cpu_now
  = if wall =? 0 then
      Some ("[Timer: " ++ name ++ "] 0 run(s) took: no time at all." ++ endl)%string
    else if 0 <? cpu then
      Some ("[Timer: " ++ name ++ "] 1 run(s) took: "
              ++ printTimeString EmptyString wall unit 0
              ++ cpu_label_open POSIX_THREAD_CPUTIME
              ++ printTimeString EmptyString cpu unit 0 ++ ")." ++ endl)%string
    else None.
Proof.
  intros wall cpu.
  set (t := Timer_new name unit true true clk).
  assert (Hw : getElapsedTime t now = wall).
  { subst t wall. unfold Timer_new, start, getCpuTime; simpl.
    destruct (cpu_start_a clk), (cpu_start_b clk); unfold getElapsedTime; simpl;
      unfold internalGetDuration;
      apply Long_add_0_fits; unfold Long.sub; apply Long_wrap_range. }
  assert (Hc : getElapsedCpuTime t cpu_now = cpu).
  { subst t cpu. unfold Timer_new, start, getCpuTime; simpl.
    destruct (cpu_start_a clk), (cpu_start_b clk), cpu_now;
      unfold getElapsedCpuTime; simpl; try reflexivity;
      apply Long_add_0_fits; unfold Long.sub; apply Long_wrap_range. }
  assert (Hn : name_ t = name /\ print_time_unit_ t = unit /\
               print_on_destruct_ t = true /\
               run_times_ t = [] /\ cpu_run_times_ t = []).
  { subst t. unfold Timer_new, start, getCpuTime; simpl.
    destruct (cpu_start_a clk), (cpu_start_b clk); simpl; auto. }
  destruct Hn as (N & U & P & R & C).
  unfold Timer_time. fold t. unfold Timer_delete, toString. rewrite P, N, U.
  unfold getRunTimes, getCpuRunTimes. rewrite Hw, Hc, R, C.
  destruct (wall =? 0) eqn:Ew; simpl negb; cbv iota.
  - unfold internalPrint. simpl.
    rewrite !string_append_assoc. reflexivity.
  - destruct (0 <? cpu) eqn:Ec.
    + assert (Hne : (cpu =? -1) = false).
      { apply Z.ltb_lt in Ec. apply Z.eqb_neq. lia. }
      unfold internalPrint, vector_at. simpl List.length. simpl Nat.eqb.
      cbv iota. simpl nth_error. cbv iota. rewrite Hne. simpl negb. cbv iota.
      rewrite printPaddedString_0.
      rewrite (printTimeString_0 _ cpu), (printTimeString_0 _ wall).
      rewrite !string_append_assoc. reflexivity.
    + unfold internalPrint, vector_at. reflexivity.
Qed.

(** ** More on the statistics *)

Lemma Long_wrap_add_l u v : Long.wrap (Long.wrap u + v) = Long.wrap (u + v).
Proof.
  unfold Long.wrap. f_equal.
  replace ((u + Long.two63) mod Long.two64 - Long.two63 + v + Long.two63)
    with ((u + Long.two63) mod Long.two64 + v) by lia.
  rewrite Zplus_mod_idemp_l. f_equal. lia.
Qed.

Lemma tally_sum_valid l :
  Forall (fun time => time <> -1) l ->
  forall a,
    tally_sum (fold_left tally_step l a)
    = match l with
      | [] => tally_sum a
      | _ => Long.wrap (tally_sum a + sum_Z l)
      end.
Proof.
  induction 1 as [| time l Hne Hl IH]; intros a; [reflexivity |].
  simpl fold_left. rewrite IH.
  unfold tally_step. destruct (Z.eqb_spec time (-1)); [contradiction |].
  simpl tally_sum. unfold Long.add.
  destruct l as [| time' l'].
  - simpl. f_equal. lia.
  - rewrite Long_wrap_add_l. f_equal.
    change (sum_Z (time :: time' :: l')) with (time + sum_Z (time' :: l')). lia.
Qed.

(** X13. The sum that [printStats] reports is the sum of the entries
    other than -1 reduced to 64 bits; it is their exact sum whenever
    that fits a [long]. *)
Theorem stats_sum_of_valid run_times :
  stats_sum (computeStats run_times) = Long.wrap (sum_Z (valid_times run_times)) /\
  (Long.fits (sum_Z (valid_times run_times)) ->
   stats_sum (computeStats run_times) = sum_Z (valid_times run_times)).
Proof.
  assert (E : stats_sum (computeStats run_times)
              = Long.wrap (sum_Z (valid_times run_times))).
  { rewrite computeStats_valid_times. unfold computeStats. simpl stats_sum.
    rewrite (tally_sum_valid _ (valid_times_no_sentinel run_times)).
    destruct (valid_times run_times); reflexivity. }
  split; [exact E |]. intros F. rewrite E. apply Long_wrap_fits, F.
Qed.

Lemma stats_sum_of_valid_witness :
  stats_sum (computeStats [4999; 5000; -1; 7000000000]) = 7000009999.
Proof.
  assert (F : Long.fits (sum_Z (valid_times [4999; 5000; -1; 7000000000])))
    by (vm_compute; split; discriminate).
  exact (proj2 (stats_sum_of_valid [4999; 5000; -1; 7000000000]) F).
Defined.

Lemma tally_extremes l :
  Forall (fun time => time <> -1) l ->
  forall a,
    let r := fold_left tally_step l a in
    tally_max a <= tally_max r /\ tally_min r <= tally_min a /\
    Forall (fun x => tally_min r <= x <= tally_max r) l /\
    (tally_max r = tally_max a \/ In (tally_max r) l) /\
    (tally_min r = tally_min a \/ In (tally_min r) l).
Proof.
  induction 1 as [| time l Hne Hl IH]; intros a; simpl.
  - repeat split; auto; lia.
  - destruct (IH (tally_step a time)) as (M1 & M2 & F & Imax & Imin).
    assert (S : tally_max (tally_step a time) = Z.max (tally_max a) time /\
                tally_min (tally_step a time) = Z.min (tally_min a) time).
    { unfold tally_step. destruct (Z.eqb_spec time (-1)); [contradiction |].
      simpl. destruct (Z.ltb_spec (tally_max a) time),
               (Z.ltb_spec time (tally_min a)); lia. }
    destruct S as [Smax Smin]. rewrite Smax in *. rewrite Smin in *.
    split; [lia |]. split; [lia |]. split; [constructor; [lia | exact F] |].
    split.
    + destruct Imax as [E | I]; [| right; right; exact I].
      destruct (Z.max_spec (tally_max a) time) as [[_ Em] | [_ Em]];
        rewrite Em in E; [right; left; auto | left; exact E].
    + destruct Imin as [E | I]; [| right; right; exact I].
      destruct (Z.min_spec (tally_min a) time) as [[_ Em] | [_ Em]];
        rewrite Em in E; [left; exact E | right; left; auto].
Qed.

(** X14. "Longest" and "Shortest" bound every entry other than -1;
    "Longest" is one of these entries or the initial 0, "Shortest" one
    of them or the initial [INT64_MAX].  When there is such an entry
    and none is negative or above [INT64_MAX], both are entries: the
    greatest and the least. *)
Theorem stats_extremes run_times :
  let valid := valid_times run_times in
  let s := computeStats run_times in
  Forall (fun x => stats_min s <= x <= stats_max s) valid /\
  (stats_max s = 0 \/ In (stats_max s) valid) /\
  (stats_min s = Long.max \/ In (stats_min s) valid) /\
  (valid <> [] -> Forall (fun x => 0 <= x <= Long.max) valid ->
   In (stats_max s) valid /\ In (stats_min s) valid).
Proof.
  intros valid s.
  assert (Es : s = computeStats valid) by apply computeStats_valid_times.
  pose proof (tally_extremes valid (valid_times_no_sentinel run_times) tally_init)
    as (M1 & M2 & F & Imax & Imin).
  simpl in M1, M2, F, Imax, Imin.
  assert (Emax : stats_max s = tally_max (fold_left tally_step valid tally_init))
    by (rewrite Es; reflexivity).
  assert (Emin : stats_min s = tally_min (fold_left tally_step valid tally_init))
    by (rewrite Es; reflexivity).
  rewrite Emax, Emin.
  split; [exact F |]. split; [exact Imax |]. split; [exact Imin |].
  intros Hne Hrange.
  destruct valid as [| x l] eqn:Ev; [contradiction |].
  inversion F as [| ? ? Fx Fl]; subst. inversion Hrange as [| ? ? Rx Rl]; subst.
  split.
  - destruct Imax as [E | I]; [| exact I]. left. lia.
  - destruct Imin as [E | I]; [| exact I]. left. unfold Long.max in *. lia.
Qed.

Lemma stats_extremes_witness :
  In (stats_max (computeStats [300; -1; 100; 200])) [300; 100; 200] /\
  In (stats_min (computeStats [300; -1; 100; 200])) [300; 100; 200].
Proof.
  destruct (stats_extremes [300; -1; 100; 200]) as (_ & _ & _ & H).
  apply H.
  - discriminate.
  - unfold Long.max, Long.two63. repeat constructor; lia.
Defined.

(** ** Doubles that hold an integer *)

(** X15. A double that holds a non-negative integer below 2^53 is
    written, with three decimals, as the integer followed by ".000":
    on such values the decimal rounding is exact. *)
Theorem put_fixed3_integer n :
  0 <= n < 2 ^ 53 ->
  put_fixed3 (Double.of_Z n) = (put_integer n ++ ".000")%string /\
  printTimeString EmptyString (Double.of_Z n) Nanoseconds 0
  = (put_integer n ++ ".000ns")%string.
Proof.
  intros Hn.
  assert (E : put_fixed3 (Double.of_Z n) = (put_integer n ++ ".000")%string).
  { destruct n as [| m | m]; [reflexivity | | lia].
    pose proof (digits2_pos_le m 53 ltac:(lia) ltac:(lia)) as Dm.
    destruct (of_Z_exact m Dm) as (mz & Em & Vm).
    rewrite Em. unfold put_fixed3.
    pose proof (digits2_pos_bounds m) as [Blo _].
    remember (Zpos (digits2_pos m)) as d eqn:Ed.
    assert (T : (if 0 <=? d - 53 then Zpos mz * 2 ^ (d - 53) * 1000
                 else round_half_even (Zpos mz * 1000) (2 ^ (- (d - 53))))
                = Zpos m * 1000).
    { destruct (Z.leb_spec 0 (d - 53)) as [L | G].
      - assert (d = 53) as -> by lia. rewrite Vm. simpl. lia.
      - replace (- (d - 53)) with (53 - d) by lia. rewrite Vm.
        assert (P : 0 < 2 ^ (53 - d)) by (apply Z.pow_pos_nonneg; lia).
        unfold round_half_even.
        replace (Zpos m * 2 ^ (53 - d) * 1000)
          with (Zpos m * 1000 * 2 ^ (53 - d)) by lia.
        rewrite Z.div_mul by lia. rewrite Z.mod_mul by lia.
        destruct (Z.compare_spec (2 * 0) (2 ^ (53 - d))); try lia; reflexivity. }
    rewrite T. rewrite Z.div_mul by lia. rewrite Z.mod_mul by lia.
    reflexivity. }
  split; [exact E |].
  unfold printTimeString. rewrite printPaddedString_0.
  cbv [put TimeValue_double]. rewrite E.
  rewrite string_append_assoc. reflexivity.
Qed.

Lemma put_fixed3_integer_witness :
  put_fixed3 (Double.of_Z 200) = "200.000"%string /\
  printTimeString EmptyString (Double.of_Z 200) Nanoseconds 0 = "200.000ns"%string.
Proof.
  apply (put_fixed3_integer 200). simpl. lia.
Defined.

(** ** Committing a run *)

(** X17. Whenever the wall accumulator left by the implicit [stop()]
    is not negative, [reset( true )] commits the run if and only if
    that accumulator is nonzero: the wall accumulator is appended to
    the wall history and the CPU accumulator, or -1 when
    [cpu_time_valid_a_] is false, to the CPU history. *)
Theorem reset_new_run_commits_nonzero_run NDEBUG t clk t1 :
  stop NDEBUG t clk = Done t1 ->
  0 <= elapsed_time_ t1 ->
  exists t',
    reset NDEBUG true t clk = Done t' /\
    (elapsed_time_ t1 <> 0 <->
     run_times_ t' = run_times_ t1 ++ [elapsed_time_ t1] /\
     cpu_run_times_ t' =
       cpu_run_times_ t1
         ++ [if cpu_time_valid_a_ t1 then elapsed_cpu_time_ t1 else -1]) /\
    (elapsed_time_ t1 = 0 ->
     run_times_ t' = run_times_ t1 /\ cpu_run_times_ t' = cpu_run_times_ t1) /\
    elapsed_time_ t' = 0 /\ elapsed_cpu_time_ t' = 0.
Proof.
  intros E Hpos. exists (reset_stopped true t1).
  split; [unfold reset; rewrite E; reflexivity |].
  destruct (reset_stopped_fields true t1) as (_ & _ & _ & Z1 & Z2).
  split; [| split; [| split; [exact Z1 | exact Z2]]].
  - unfold reset_stopped.
    destruct (Z.ltb_spec 0 (elapsed_time_ t1)) as [L | G]; simpl.
    + split; [auto | lia].
    + split; [lia |]. intros [H _].
      apply (f_equal (@List.length Z)) in H. rewrite length_app in H.
      simpl in H. lia.
  - intros Hz. unfold reset_stopped. rewrite Hz. simpl. auto.
Qed.

Lemma reset_new_run_commits_nonzero_run_witness :
  exists t',
    reset false true wall_only_timer wall_only_stop_clock = Done t' /\
    run_times_ t' = [4020] /\ cpu_run_times_ t' = [-1].
Proof.
  destruct (reset_new_run_commits_nonzero_run false wall_only_timer
              wall_only_stop_clock wall_only_stopped eq_refl)
    as (t' & R & [H _] & _).
  - vm_compute. discriminate.
  - exists t'. split; [exact R |].
    destruct H as [H1 H2]; [vm_compute; discriminate |].
    split; [exact H1 | exact H2].
Defined.

(** ** A single valid entry *)

(** Non-negative integers below 2^53 convert to a canonical double. *)
Lemma of_Z_canonical m :
  Zpos m < 2 ^ 53 ->
  exists mz e,
    Double.of_Z (Zpos m) = S754_finite false mz e /\
    Zpos (digits2_pos mz) = 53 /\ -52 <= e <= 0.
Proof.
  intros Hm.
  pose proof (digits2_pos_le m 53 ltac:(lia) Hm) as Dm.
  destruct (of_Z_exact m Dm) as (mz & Em & Vm).
  pose proof (digits2_pos_bounds m) as [Blo Bhi].
  assert (1 <= Zpos (digits2_pos m)) by lia.
  remember (Zpos (digits2_pos m)) as d eqn:Ed.
  exists mz, (d - 53). split; [exact Em |]. split; [| lia].
  apply digits2_pos_unique. rewrite Vm.
  replace (2 ^ (53 - 1)) with (2 ^ (d - 1) * 2 ^ (53 - d)).
  2:{ rewrite <- Z.pow_add_r by lia. f_equal. lia. }
  replace (2 ^ 53) with (2 ^ d * 2 ^ (53 - d)).
  2:{ rewrite <- Z.pow_add_r by lia. f_equal. lia. }
  assert (0 < 2 ^ (53 - d)) by (apply Z.pow_pos_nonneg; lia).
  nia.
Qed.

(** Dividing a canonical double by 1.0 gives it back. *)
Lemma div_by_one mz e :
  Zpos (digits2_pos mz) = 53 -> -52 <= e <= 0 ->
  Double.div (S754_finite false mz e) (Double.of_Z 1) = S754_finite false mz e.
Proof.
  intros Hd He.
  change (Double.of_Z 1) with (S754_finite false 4503599627370496 (-52)).
  unfold Double.div, Double.prec, Double.emax, SFdiv, SFdiv_core_binary.
  unfold Zdigits2. rewrite Hd.
  change (Zpos (digits2_pos 4503599627370496)) with 53.
  replace (Z.min (fexp 53 1024 (53 + e - (53 + -52))) (e - -52)) with (e - 1)
    by (unfold fexp, emin; lia).
  replace (e - -52 - (e - 1)) with 53 by lia. cbv iota.
  rewrite Z.shiftl_mul_pow2 by lia.
  pose proof (Z_div_mod (Zpos mz * 2 ^ 53) 4503599627370496 ltac:(reflexivity)) as DM.
  destruct (Z.div_eucl (Zpos mz * 2 ^ 53) 4503599627370496) as [q r].
  change (2 ^ 53) with 9007199254740992 in DM.
  assert (q = Zpos mz~0 /\ r = 0) as [-> ->].
  { change (Zpos mz~0) with (2 * Zpos mz). lia. }
  change (new_location 4503599627370496 0) with loc_Exact.
  unfold binary_round_aux.
  assert (S1 : shr_fexp 53 1024 (Zpos mz~0) (e - 1) loc_Exact
               = ({| shr_m := Zpos mz; shr_r := false; shr_s := false |}, e)).
  { unfold shr_fexp, Zdigits2. simpl digits2_pos. rewrite Pos2Z.inj_succ, Hd.
    replace (fexp 53 1024 (Z.succ 53 + (e - 1)) - (e - 1)) with 1
      by (unfold fexp, emin; lia).
    unfold shr, shr_record_of_loc, iter_pos, shr_1. simpl orb. f_equal. lia. }
  rewrite S1. cbv [shr_m loc_of_shr_record round_nearest_even].
  rewrite (shr_fexp_canonical mz e Hd) by lia. cbv [shr_m].
  destruct (e <=? 1024 - 53) eqn:L; [reflexivity | apply Z.leb_gt in L; lia].
Qed.

(** X18. When exactly one entry is not -1 (and it is a non-negative
    integer below 2^53), [printStats] counts 1, its mean is that
    entry, and its variance is 0.0 / 0: the deviation it prints is
    the square root of a NaN, a NaN, not a number. *)
Theorem stats_single_valid_entry run_times time :
  valid_times run_times = [time] ->
  0 <= time < 2 ^ 53 ->
  stats_count (computeStats run_times) = 1 /\
  stats_mean (computeStats run_times) = Double.of_Z time /\
  stats_var (computeStats run_times) = S754_nan /\
  Double.sqrt (stats_var (computeStats run_times)) = S754_nan.
Proof.
  intros Hv Ht. rewrite computeStats_valid_times, Hv.
  assert (Hne : (time =? -1) = false) by (apply Z.eqb_neq; lia).
  assert (Hsum : Long.add 0 time = time).
  { apply Long_add_0_fits. unfold Long.fits, Long.min, Long.max, Long.two63.
    change (2 ^ 53) with 9007199254740992 in Ht. lia. }
  assert (Hmean : Double.div (Double.of_Z time) (Double.of_Z 1) = Double.of_Z time).
  { destruct time as [| m | m]; [reflexivity | | lia].
    destruct (of_Z_canonical m ltac:(lia)) as (mz & e & Em & Dm & He).
    rewrite Em. apply div_by_one; assumption. }
  assert (Hsub : Double.sub (Double.of_Z time) (Double.of_Z time) = Double.zero).
  { destruct time as [| m | m]; [reflexivity | | lia].
    destruct (of_Z_canonical m ltac:(lia)) as (mz & e & Em & _).
    rewrite Em. unfold Double.sub, SFsub. rewrite Z.sub_diag. reflexivity. }
  assert (Hstats : computeStats [time]
                   = {| stats_max := if 0 <? time then time else 0;
                        stats_min := if time <? Long.max then time else Long.max;
                        stats_sum := time; stats_count := 1;
                        stats_mean := Double.of_Z time;
                        stats_var := S754_nan |}).
  { unfold computeStats. simpl fold_left. unfold tally_step, var_step.
    rewrite Hne. cbn [tally_sum tally_count tally_max tally_min tally_init].
    rewrite Hsum. change (SizeT.add 0 1) with 1. rewrite Hmean, Hsub.
    reflexivity. }
  rewrite Hstats. simpl. repeat split.
Qed.

Lemma stats_single_valid_entry_witness :
  stats_count (computeStats [-1; 4000; -1]) = 1 /\
  stats_mean (computeStats [-1; 4000; -1]) = Double.of_Z 4000 /\
  Double.sqrt (stats_var (computeStats [-1; 4000; -1])) = S754_nan.
Proof.
  destruct (stats_single_valid_entry [-1; 4000; -1] 4000 eq_refl) as (H1 & H2 & _ & H4).
  - simpl. lia.
  - split; [exact H1 | split; [exact H2 | exact H4]].
Defined.
